(** * regret: a shallow embedding of the ReDoS analyzer

    The development follows the Go packages of the repository:

    - [GoInt], [GoString]: the Go base types the code computes with;
    - [Syntax]: the [regexp/syntax] AST the whole repository walks over;
    - [Parser]: [internal/parser/parser.go] (AST utilities and [Parse]);
    - [NFA]: [internal/parser/nfa.go] (Thompson construction, closures);
    - [Detector]: [internal/detector] (fast rules and the NFA analysis);
    - [Pump]: the [pump] package (adversarial input synthesis);
    - [Analyzer]: the [analyzer] package (the complexity scorer);
    - [Regret]: the public package (options, [Validate], [AnalyzeComplexity]).

    Definitions come first; the properties of the specification follow. *)

From Stdlib Require Import ZArith String Ascii Bool List Lia.
From stdpp Require Import base tactics option list gmap sets strings pretty relations.

Open Scope string_scope.
Open Scope list_scope.
Open Scope Z_scope.

(** ** Go's [int]

    [int] is 64 bits wide on the platforms the tool is built for; addition and
    multiplication wrap around silently.  The score arithmetic below goes
    through [add], [sub] and [mul].  Counters that are bumped once per node
    of a tree, and lengths, never leave the range and are kept as plain
    integers. *)
Module GoInt.

Definition int_min : Z := - 2 ^ 63.
Definition int_max : Z := 2 ^ 63 - 1.

Definition wrap (x : Z) : Z := (x + 2 ^ 63) mod 2 ^ 64 - 2 ^ 63.

Definition add (a b : Z) : Z := wrap (a + b).
Definition sub (a b : Z) : Z := wrap (a - b).
Definition mul (a b : Z) : Z := wrap (a * b).

(** [len(x)] of a slice or of a string. *)
Definition len {A} (l : list A) : Z := Z.of_nat (List.length l).

End GoInt.

(** ** Go strings: byte sequences *)
Module GoString.

(** [len(s)]: the number of bytes. *)
Definition len (s : string) : Z := Z.of_nat (String.length s).

(** [strings.HasPrefix(s, prefix)]. *)
Definition HasPrefix (s pre : string) : bool := String.prefix pre s.

(** [strings.Contains(s, substr)]. *)
Fixpoint Contains (s substr : string) : bool :=
  String.prefix substr s
  || match s with
     | EmptyString => false
     | String _ s' => Contains s' substr
     end.

(** [strings.Repeat]-like loop [for i := 0; i < n; i++ { acc += p }]. *)
Fixpoint append_times (n : nat) (p acc : string) : string :=
  match n with
  | O => acc
  | S n' => append_times n' p (acc +:+ p)
  end.

Definition byte (n : Z) : ascii := ascii_of_N (Z.to_N (n mod 256)).

(** [string(r)] for a rune [r]: its UTF-8 encoding; surrogates and values
    outside the Unicode range encode U+FFFD. *)
Definition of_rune (r : Z) : string :=
  if (r <? 0) || (1114111 <? r) || ((55296 <=? r) && (r <=? 57343)) then
    String (byte 239) (String (byte 191) (String (byte 189) EmptyString))
  else if r <=? 127 then
    String (byte r) EmptyString
  else if r <=? 2047 then
    String (byte (Z.lor 192 (Z.shiftr r 6)))
      (String (byte (Z.lor 128 (Z.land r 63))) EmptyString)
  else if r <=? 65535 then
    String (byte (Z.lor 224 (Z.shiftr r 12)))
      (String (byte (Z.lor 128 (Z.land (Z.shiftr r 6) 63)))
         (String (byte (Z.lor 128 (Z.land r 63))) EmptyString))
  else
    String (byte (Z.lor 240 (Z.shiftr r 18)))
      (String (byte (Z.lor 128 (Z.land (Z.shiftr r 12) 63)))
         (String (byte (Z.lor 128 (Z.land (Z.shiftr r 6) 63)))
            (String (byte (Z.lor 128 (Z.land r 63))) EmptyString))).

(** [%d] of [fmt.Sprintf]. *)
Definition of_int (n : Z) : string := pretty n.

End GoString.

(** ** [regexp/syntax]: the AST *)
Module Syntax.

Inductive Op : Set :=
| OpNoMatch | OpEmptyMatch | OpLiteral | OpCharClass | OpAnyCharNotNL
| OpAnyChar | OpBeginLine | OpEndLine | OpBeginText | OpEndText
| OpWordBoundary | OpNoWordBoundary | OpCapture | OpStar | OpPlus
| OpQuest | OpRepeat | OpConcat | OpAlternate.

Definition Op_eqb (a b : Op) : bool :=
  match a, b with
  | OpNoMatch, OpNoMatch | OpEmptyMatch, OpEmptyMatch
  | OpLiteral, OpLiteral | OpCharClass, OpCharClass
  | OpAnyCharNotNL, OpAnyCharNotNL | OpAnyChar, OpAnyChar
  | OpBeginLine, OpBeginLine | OpEndLine, OpEndLine
  | OpBeginText, OpBeginText | OpEndText, OpEndText
  | OpWordBoundary, OpWordBoundary | OpNoWordBoundary, OpNoWordBoundary
  | OpCapture, OpCapture | OpStar, OpStar | OpPlus, OpPlus
  | OpQuest, OpQuest | OpRepeat, OpRepeat | OpConcat, OpConcat
  | OpAlternate, OpAlternate => true
  | _, _ => false
  end.

(** [syntax.Flags] bits. *)
Definition FoldCase : Z := 1.
Definition ClassNL : Z := 4.
Definition DotNL : Z := 8.
Definition OneLine : Z := 16.
Definition NonGreedy : Z := 32.
Definition PerlX : Z := 64.
Definition UnicodeGroups : Z := 128.
Definition Perl : Z :=
  Z.lor ClassNL (Z.lor OneLine (Z.lor PerlX UnicodeGroups)).

(** [syntax.Regexp]: one node type with an operator tag, as in Go. *)
#[local] Unset Elimination Schemes.
Inductive Regexp : Type :=
  mkRegexp {
      Op_ : Op;
      Flags : Z;
      Sub : list Regexp;
      Rune : list Z;
      Min : Z;
      Max : Z;
      Cap : Z;
      Name : string
    }.
#[local] Set Elimination Schemes.

(** What the repository takes from [regexp/syntax] without defining it:
    [syntax.Parse], [Regexp.Simplify] and [Regexp.String]. *)
Class Library := {
    syntax_Parse : string -> Z -> Regexp + string;
    Simplify : Regexp -> Regexp;
    String_ : Regexp -> string
  }.

(** The number of nodes of a tree. *)
Fixpoint nodes (re : Regexp) : nat :=
  S (list_sum (List.map nodes (Sub re))).

End Syntax.

(** ** Go errors

    The sentinels the packages create with [errors.New], and the values
    [fmt.Errorf] builds around them with the verb [%w]. *)
Module Errors.

Inductive sentinel : Set :=
| parser_ErrInvalidPattern      (* internal/parser: "invalid regex pattern" *)
| regret_ErrInvalidPattern      (* regret: "invalid regex pattern" *)
| regret_ErrPatternTooLong      (* regret: "pattern too long" *)
| regret_ErrTimeout             (* regret: "analysis timeout exceeded" *)
| regret_ErrUnsupportedFeature. (* regret: "unsupported regex feature" *)

Definition sentinel_text (s : sentinel) : string :=
  match s with
  | parser_ErrInvalidPattern | regret_ErrInvalidPattern => "invalid regex pattern"
  | regret_ErrPatternTooLong => "pattern too long"
  | regret_ErrTimeout => "analysis timeout exceeded"
  | regret_ErrUnsupportedFeature => "unsupported regex feature"
  end.

(** An error value: the sentinel it unwraps to, if it wraps one, and its
    message. *)
Record error : Set := mkError { Unwrap : option sentinel; Message : string }.

(** [fmt.Errorf("%w: <detail>", s, ...)]. *)
Definition Errorf (s : sentinel) (detail : string) : error :=
  mkError (Some s) (sentinel_text s +:+ ": " +:+ detail).

(** [fmt.Errorf(msg)] without [%w], or [errors.New(msg)] used in place. *)
Definition plainError (msg : string) : error := mkError None msg.



(** What a call can end in: a value, a returned [error], or a run-time
    panic (the only one in reach is an index out of range). *)
Inductive outcome (A : Type) : Type :=
| Ok (a : A)
| Err (e : error)
| Panic (msg : string).
#[global] Arguments Ok {A} a.
#[global] Arguments Err {A} e.
#[global] Arguments Panic {A} msg.

End Errors.

(** ** [internal/parser/parser.go] *)
Module Parser.
Import Syntax Errors.

Record Parser : Set := mkParser { flags : Z }.

Definition NewParser : Parser := mkParser Perl.

(** [Parse]: [syntax.Parse], the error wrapped, then [Simplify]. *)
Definition Parse `{Library} (p : Parser) (pattern : string) : Regexp + error :=
  match syntax_Parse pattern (flags p) with
  | inr err => inr (Errorf parser_ErrInvalidPattern err)
  | inl re => inl (Simplify re)
  end.

Definition IsQuantifier (re : Regexp) : bool :=
  match Op_ re with
  | OpStar | OpPlus | OpQuest | OpRepeat => true
  | _ => false
  end.

Definition IsAlternation (re : Regexp) : bool := Op_eqb (Op_ re) OpAlternate.

Definition IsCapture (re : Regexp) : bool := Op_eqb (Op_ re) OpCapture.

Fixpoint HasQuantifier (re : Regexp) : bool :=
  if IsQuantifier re then true else existsb HasQuantifier (Sub re).

Fixpoint CountQuantifiers (re : Regexp) : Z :=
  fold_left (fun count sub => count + CountQuantifiers sub) (Sub re)
    (if IsQuantifier re then 1 else 0).

Fixpoint getNestingDepthHelper (re : Regexp) (currentDepth : Z) : Z :=
  let maxDepth := currentDepth in
  let currentDepth' := if IsQuantifier re then currentDepth + 1 else currentDepth in
  let maxDepth' :=
    if IsQuantifier re && (maxDepth <? currentDepth') then currentDepth' else maxDepth in
  fold_left
    (fun maxDepth sub =>
       let subDepth := getNestingDepthHelper sub currentDepth' in
       if maxDepth <? subDepth then subDepth else maxDepth)
    (Sub re) maxDepth'.

Definition GetNestingDepth (re : Regexp) : Z := getNestingDepthHelper re 0.

Fixpoint CountAlternations (re : Regexp) : Z :=
  fold_left (fun count sub => count + CountAlternations sub) (Sub re)
    (if IsAlternation re then 1 else 0).

Fixpoint CountCaptures (re : Regexp) : Z :=
  fold_left (fun count sub => count + CountCaptures sub) (Sub re)
    (if IsCapture re then 1 else 0).

(** [Walk]: pre-order traversal.  The Go visitor is a closure that updates
    the variables it captured; here these variables are the state [S] the
    visitor threads.  Returning [false] prunes the children of the node. *)
Fixpoint Walk {S : Type} (visitor : Regexp -> S -> bool * S) (re : Regexp) (s : S) : S :=
  let (descend, s1) := visitor re s in
  if descend then fold_left (fun acc sub => Walk visitor sub acc) (Sub re) s1
  else s1.

Definition FindQuantifiers (re : Regexp) : list Regexp :=
  Walk (fun node quantifiers =>
          (true, if IsQuantifier node then quantifiers ++ [node] else quantifiers))
    re [].

Definition FindAlternations (re : Regexp) : list Regexp :=
  Walk (fun node alternations =>
          (true, if IsAlternation node then alternations ++ [node] else alternations))
    re [].

End Parser.

(** ** [internal/parser/nfa.go]

    States live in the slice [nfa.States]; a [*State] is modelled by the index
    of the state in that slice (its address in the arena).  [BuildNFA] is the
    only producer of automata and gives the state at index [i] the [ID] [i]. *)
Module NFA.
Import Syntax Errors.

Inductive TransitionType : Set :=
| TransitionLiteral | TransitionClass | TransitionAny
| TransitionEpsilon | TransitionAnchor.

Record RuneRange : Set := mkRuneRange { Lo : Z; Hi : Z }.

Record CharClass : Set := mkCharClass { Ranges : list RuneRange; Negate : bool }.

Record TransitionLabel : Set :=
  mkLabel {
      Type_ : TransitionType;
      Runes : list Z; Class : option CharClass;  (* nil unless a class transition *)
      LabelOp : option Op         (* the zero [syntax.Op] is no operator *)
    }.

Record Transition : Set :=
  mkTransition { From : nat; To : nat; Label : TransitionLabel; IsEpsilon : bool }.

Record State : Set :=
  mkState {
      ID : Z;
      IsAccept : bool;
      Transitions : list Transition;
      EpsilonTo : list nat
    }.

Record NFA : Type :=
  mkNFA {
      Start : option nat;
      Accept : option nat;
      States : list State;
      StateCount : Z;
      TransitionsOf : gmap nat (list Transition)
    }.

Definition NewNFA : NFA := mkNFA None None [] 0 ∅.

(** Builders update the automaton in place: a state monad over [NFA]. *)
Definition Build (A : Type) : Type := NFA -> outcome (A * NFA).

Definition ret {A} (a : A) : Build A := fun nfa => Ok (a, nfa).

Definition bind {A B} (m : Build A) (k : A -> Build B) : Build B :=
  fun nfa =>
    match m nfa with
    | Ok (a, nfa') => k a nfa'
    | Err e => Err e
    | Panic msg => Panic msg
    end.

Definition panic {A} (msg : string) : Build A := fun _ => Panic msg.

Declare Scope build_scope.
Delimit Scope build_scope with build.
Notation "x <- m ;; k" := (bind m (fun x => k))
  (at level 100, m at next level, right associativity) : build_scope.
Notation "m ;;; k" := (bind m (fun _ => k))
  (at level 100, right associativity) : build_scope.
Local Open Scope build_scope.

Definition NewState : Build nat :=
  fun nfa =>
    let state := mkState (StateCount nfa) false [] [] in
    Ok (List.length (States nfa),
        mkNFA (Start nfa) (Accept nfa) (States nfa ++ [state])
          (StateCount nfa + 1) (TransitionsOf nfa)).

Definition AddTransition (from to : nat) (label : TransitionLabel) : Build Transition :=
  fun nfa =>
    let isEps := match Type_ label with TransitionEpsilon => true | _ => false end in
    let trans := mkTransition from to label isEps in
    let upd (st : State) :=
      mkState (ID st) (IsAccept st) (Transitions st ++ [trans])
        (if isEps then EpsilonTo st ++ [to] else EpsilonTo st) in
    Ok (trans,
        mkNFA (Start nfa) (Accept nfa) (alter upd from (States nfa)) (StateCount nfa)
          (<[from := default [] (TransitionsOf nfa !! from) ++ [trans]]> (TransitionsOf nfa))).

Definition AddEpsilonTransition (from to : nat) : Build Transition :=
  AddTransition from to (mkLabel TransitionEpsilon [] None None).

(** [buildLiteral]: a chain of one transition per rune. *)
Fixpoint buildLiteral_loop (runes : list Z) (n : Z) (i : Z) (current accept : nat)
  : Build unit :=
  match runes with
  | [] => ret tt
  | r :: rest =>
      next <- (if i =? n - 1 then ret accept else NewState) ;;
      AddTransition current next (mkLabel TransitionLiteral [r] None None) ;;;
      buildLiteral_loop rest n (i + 1) next accept
  end.

Definition buildLiteral (re : Regexp) (start accept : nat) : Build unit :=
  buildLiteral_loop (Rune re) (GoInt.len (Rune re)) 0 start accept.

(** The loop [for i := 0; i < len(re.Rune); i += 2] reading [re.Rune[i]]
    and [re.Rune[i+1]]; the second read is out of range on an odd length. *)
Fixpoint buildCharClass_ranges (runes : list Z) (ranges : list RuneRange)
  : option (list RuneRange) :=
  match runes with
  | [] => Some ranges
  | [_] => None
  | lo :: hi :: rest => buildCharClass_ranges rest (ranges ++ [mkRuneRange lo hi])
  end.

Definition buildCharClass (re : Regexp) (start accept : nat) : Build unit :=
  match buildCharClass_ranges (Rune re) [] with
  | None => panic "index out of range"
  | Some ranges =>
      let class := mkCharClass ranges (negb (Z.land (Flags re) ClassNL =? 0)) in
      AddTransition start accept (mkLabel TransitionClass [] (Some class) None) ;;;
      ret tt
  end.

Definition buildAnyChar (re : Regexp) (start accept : nat) : Build unit :=
  AddTransition start accept (mkLabel TransitionAny [] None (Some (Op_ re))) ;;;
  ret tt.

Section Builders.
(** The recursive entry point, [buildNFAFromRegexp]. *)
Variable build : Regexp -> nat -> nat -> Build unit.

Fixpoint buildConcat_loop (subs : list Regexp) (n : Z) (i : Z) (current accept : nat)
  : Build unit :=
  match subs with
  | [] => ret tt
  | sub :: rest =>
      next <- (if i =? n - 1 then ret accept else NewState) ;;
      build sub current next ;;;
      buildConcat_loop rest n (i + 1) next accept
  end.

Definition buildConcat (re : Regexp) (start accept : nat) : Build unit :=
  match Sub re with
  | [] => AddEpsilonTransition start accept ;;; ret tt
  | subs => buildConcat_loop subs (GoInt.len subs) 0 start accept
  end.

Fixpoint buildAlternate_loop (subs : list Regexp) (start accept : nat) : Build unit :=
  match subs with
  | [] => ret tt
  | sub :: rest =>
      altStart <- NewState ;;
      altEnd <- NewState ;;
      AddEpsilonTransition start altStart ;;;
      build sub altStart altEnd ;;;
      AddEpsilonTransition altEnd accept ;;;
      buildAlternate_loop rest start accept
  end.

Definition buildAlternate (re : Regexp) (start accept : nat) : Build unit :=
  buildAlternate_loop (Sub re) start accept.

Definition buildStar (re : Regexp) (start accept : nat) : Build unit :=
  match Sub re with
  | [] => AddEpsilonTransition start accept ;;; ret tt
  | sub0 :: _ =>
      loopStart <- NewState ;;
      loopEnd <- NewState ;;
      AddEpsilonTransition start loopStart ;;;
      AddEpsilonTransition start accept ;;;
      build sub0 loopStart loopEnd ;;;
      AddEpsilonTransition loopEnd loopStart ;;;
      AddEpsilonTransition loopEnd accept ;;;
      ret tt
  end.

Definition buildPlus (re : Regexp) (start accept : nat) : Build unit :=
  match Sub re with
  | [] => AddEpsilonTransition start accept ;;; ret tt
  | sub0 :: _ =>
      loopStart <- NewState ;;
      loopEnd <- NewState ;;
      AddEpsilonTransition start loopStart ;;;
      build sub0 loopStart loopEnd ;;;
      AddEpsilonTransition loopEnd loopStart ;;;
      AddEpsilonTransition loopEnd accept ;;;
      ret tt
  end.

Definition buildQuest (re : Regexp) (start accept : nat) : Build unit :=
  match Sub re with
  | [] => AddEpsilonTransition start accept ;;; ret tt
  | sub0 :: _ =>
      AddEpsilonTransition start accept ;;;
      build sub0 start accept
  end.

(** [for i := 0; i < min; i++]: the required copies. *)
Fixpoint buildRepeat_required (sub0 : Regexp) (count : nat) (current : nat) : Build nat :=
  match count with
  | O => ret current
  | S count' =>
      next <- NewState ;;
      build sub0 current next ;;;
      buildRepeat_required sub0 count' next
  end.

(** [for i := min; i < max; i++]: the optional copies. *)
Fixpoint buildRepeat_optional (sub0 : Regexp) (count : nat) (current : nat) : Build nat :=
  match count with
  | O => ret current
  | S count' =>
      next <- NewState ;;
      AddEpsilonTransition current next ;;;
      build sub0 current next ;;;
      buildRepeat_optional sub0 count' next
  end.

Definition buildRepeat (re : Regexp) (start accept : nat) : Build unit :=
  match Sub re with
  | [] => AddEpsilonTransition start accept ;;; ret tt
  | sub0 :: _ =>
      let min := Min re in
      let max := Max re in
      current <- buildRepeat_required sub0 (Z.to_nat min) start ;;
      if max =? -1 then
        loopStart <- NewState ;;
        loopEnd <- NewState ;;
        AddEpsilonTransition current loopStart ;;;
        AddEpsilonTransition current accept ;;;
        build sub0 loopStart loopEnd ;;;
        AddEpsilonTransition loopEnd loopStart ;;;
        AddEpsilonTransition loopEnd accept ;;;
        ret tt
      else
        current' <- buildRepeat_optional sub0 (Z.to_nat (max - min)) current ;;
        AddEpsilonTransition current' accept ;;;
        ret tt
  end.
End Builders.

Fixpoint buildNFAFromRegexp (re : Regexp) (start accept : nat) {struct re} : Build unit :=
  match Op_ re with
  | OpLiteral => buildLiteral re start accept
  | OpCharClass => buildCharClass re start accept
  | OpAnyChar | OpAnyCharNotNL => buildAnyChar re start accept
  | OpConcat => buildConcat buildNFAFromRegexp re start accept
  | OpAlternate => buildAlternate buildNFAFromRegexp re start accept
  | OpStar => buildStar buildNFAFromRegexp re start accept
  | OpPlus => buildPlus buildNFAFromRegexp re start accept
  | OpQuest => buildQuest buildNFAFromRegexp re start accept
  | OpRepeat => buildRepeat buildNFAFromRegexp re start accept
  | OpCapture =>
      match Sub re with
      | sub0 :: _ => buildNFAFromRegexp sub0 start accept
      | [] => AddEpsilonTransition start accept ;;; ret tt
      end
  | OpEmptyMatch => AddEpsilonTransition start accept ;;; ret tt
  | OpBeginLine | OpEndLine | OpBeginText | OpEndText =>
      AddTransition start accept (mkLabel TransitionAnchor [] None (Some (Op_ re))) ;;;
      ret tt
  | _ => AddEpsilonTransition start accept ;;; ret tt
  end.

Definition setAccept (accept : nat) : Build unit :=
  fun nfa =>
    let upd (st : State) := mkState (ID st) true (Transitions st) (EpsilonTo st) in
    Ok (tt, mkNFA (Start nfa) (Accept nfa) (alter upd accept (States nfa))
              (StateCount nfa) (TransitionsOf nfa)).

Definition setStartAccept (start accept : nat) : Build unit :=
  fun nfa =>
    Ok (tt, mkNFA (Some start) (Some accept) (States nfa) (StateCount nfa)
              (TransitionsOf nfa)).

Definition BuildNFA (re : Regexp) : outcome NFA :=
  match (start <- NewState ;;
         accept <- NewState ;;
         setAccept accept ;;;
         setStartAccept start accept ;;;
         buildNFAFromRegexp re start accept) NewNFA with
  | Ok (_, nfa) => Ok nfa
  | Err e => Err e
  | Panic msg => Panic msg
  end.

(** The epsilon successors of the state at an address. *)
Definition epsilonTo (nfa : NFA) (state : nat) : list nat :=
  match States nfa !! state with
  | Some st => EpsilonTo st
  | None => []
  end.

(** [computeEpsilonClosureHelper]: depth-first marking.  [fuel] bounds the
    depth of the recursion; [None] is returned only when it runs out. *)
Fixpoint computeEpsilonClosureHelper (fuel : nat) (nfa : NFA) (state : nat)
  (closure : gset nat) : option (gset nat) :=
  match fuel with
  | O => None
  | S fuel' =>
      if decide (state ∈ closure) then Some closure
      else
        foldl (fun acc next =>
                 match acc with
                 | Some closure' => computeEpsilonClosureHelper fuel' nfa next closure'
                 | None => None
                 end)
          (Some ({[state]} ∪ closure)) (epsilonTo nfa state)
  end.

(** [ComputeEpsilonClosure]: every chain of nested calls marks a fresh state
    of the arena, so a depth of one more than the number of states is never
    exceeded (lemma [computeEpsilonClosureHelper_terminates] below). *)
Definition ComputeEpsilonClosure (nfa : NFA) (state : nat) : gset nat :=
  default ∅ (computeEpsilonClosureHelper (S (List.length (States nfa))) nfa state ∅).

End NFA.

(** ** [internal/detector]: [detector.go] and [nfa_analysis.go] *)
Module Detector.
Import Syntax Errors.

(** [ValidationMode] is an [int]: any value can be converted to it. *)
Definition ValidationMode : Set := Z.
Definition Fast : ValidationMode := 0.
Definition Balanced : ValidationMode := 1.
Definition Thorough : ValidationMode := 2.

Record Options : Set := mkOptions { Mode : ValidationMode; Checks : Z }.

Record Position : Set := mkPosition { Start : Z; End : Z; Line : Z; Column : Z }.

Record Issue : Set :=
  mkIssue {
      Type_ : string;
      Severity : string;
      Position_ : Position;
      Pattern : string;
      Message : string; Example : string;
      Suggestion : string;
      Complexity : Z
    }.

(** The position every rule reports: the whole pattern. *)
Definition whole (pattern : string) : Position :=
  mkPosition 0 (GoString.len pattern) 0 0.

Definition generateNestedQuantifierExample (node : Regexp) : string :=
  match Op_ node with
  | OpStar | OpPlus => "aaaaaa"
  | OpQuest => "a"
  | _ => "test"
  end.

(** The loop [for a.Op == syntax.OpCapture && len(a.Sub) > 0 { a = a.Sub[0] }]. *)
Fixpoint unwrapCaptures (a : Regexp) : Regexp :=
  match Op_ a, Sub a with
  | OpCapture, sub0 :: _ => unwrapCaptures sub0
  | _, _ => a
  end.

Definition isWide (a : Regexp) : bool :=
  match Op_ a with
  | OpAnyChar | OpCharClass => true
  | _ => false
  end.

Section WithLibrary.
Context `{Library}.

(** [branchesOverlap]: every recursive call is on a first child of one
    of the two trees; [fuel] bounds the number of nested calls and [None]
    is returned only when it runs out. *)
Fixpoint branchesOverlap_fuel (fuel : nat) (a b : Regexp) : option bool :=
  match fuel with
  | O => None
  | S fuel' =>
      let a := unwrapCaptures a in
      let b := unwrapCaptures b in
      let aStr := String_ a in
      let bStr := String_ b in
      if (0 <? GoString.len aStr) && (0 <? GoString.len bStr)
         && (GoString.HasPrefix aStr bStr || GoString.HasPrefix bStr aStr)
      then Some true
      else if Op_eqb (Op_ a) OpLiteral && Op_eqb (Op_ b) OpLiteral
              && match Rune a, Rune b with
                 | ra :: _, rb :: _ => ra =? rb
                 | _, _ => false
                 end
      then Some true
      else
        match Op_ a, Op_ b, Sub a, Sub b with
        | OpConcat, OpConcat, a0 :: _, b0 :: _ => branchesOverlap_fuel fuel' a0 b0
        | OpConcat, OpLiteral, a0 :: _, _ => branchesOverlap_fuel fuel' a0 b
        | OpLiteral, OpConcat, _, b0 :: _ => branchesOverlap_fuel fuel' a b0
        | _, _, _, _ => Some (isWide a && isWide b)
        end
  end.

(** The two trees together bound the depth of the recursion (lemma
    [branchesOverlap_fuel_enough] below). *)
Definition branchesOverlap (a b : Regexp) : bool :=
  default false (branchesOverlap_fuel (S (nodes a + nodes b)) a b).

Definition nestedQuantifierIssue (pattern : string) (node : Regexp) : Issue :=
  mkIssue "nested_quantifiers" "critical" (whole pattern) (String_ node)
    ("Nested quantifiers detected: " +:+ String_ node)
    (generateNestedQuantifierExample node)
    "Remove nesting: simplify to a single quantifier" 90.

(** [detectNestedQuantifiers]: one issue per child of a quantifier that
    contains a quantifier. *)
Definition detectNestedQuantifiers (re : Regexp) (pattern : string) : list Issue :=
  Parser.Walk
    (fun node issues =>
       if negb (Parser.IsQuantifier node) then (true, issues)
       else
         (true,
          fold_left
            (fun issues sub =>
               if Parser.HasQuantifier sub
               then issues ++ [nestedQuantifierIssue pattern node]
               else issues)
            (Sub node) issues))
    re [].

Definition overlappingAlternationIssue (pattern : string) (node : Regexp) : Issue :=
  mkIssue "overlapping_alternation" "high" (whole pattern) (String_ node)
    ("Overlapping alternation branches: " +:+ String_ node)
    "ababababx" "Reorder branches or use atomic grouping" 70.

(** The inner loop [for j := i + 1; j < len(node.Sub); j++]: it appends
    one issue at the first overlapping [j] and then breaks; the result
    tells whether it did. *)
Fixpoint overlap_inner (a : Regexp) (rest : list Regexp) : bool :=
  match rest with
  | [] => false
  | b :: rest' => if branchesOverlap a b then true else overlap_inner a rest'
  end.

(** The outer loop [for i := 0; i < len(node.Sub); i++]; the [break] of
    the inner loop does not leave it. *)
Fixpoint overlap_outer (pattern : string) (node : Regexp) (subs : list Regexp)
  (issues : list Issue) : list Issue :=
  match subs with
  | [] => issues
  | a :: rest =>
      overlap_outer pattern node rest
        (if overlap_inner a rest
         then issues ++ [overlappingAlternationIssue pattern node]
         else issues)
  end.

Definition detectOverlappingAlternations (re : Regexp) (pattern : string) : list Issue :=
  Parser.Walk
    (fun node issues =>
       if negb (Parser.IsAlternation node) then (true, issues)
       else if 2 <=? GoInt.len (Sub node)
            then (true, overlap_outer pattern node (Sub node) issues)
            else (true, issues))
    re [].

Definition dangerousPatterns : list string :=
  [ "a*a+"; "a+a*"; "a*a*";
    "\d*\d+"; "\d+\d*"; "\d*\d*";
    "\w*\w+"; "\w+\w*"; "\w*\w*";
    ".*."; ".+."; ".*.*" ].

Definition detectDangerousPatterns (re : Regexp) (pattern : string) : list Issue :=
  let issues :=
    if GoString.Contains pattern "*.*" || GoString.Contains pattern "+.+"
    then [ mkIssue "polynomial_backtracking" "high" (whole pattern) pattern
             "Overlapping unbounded quantifiers detected" "aaaaaaaax"
             "Use possessive quantifiers or atomic grouping" 60 ]
    else [] in
  fold_left
    (fun issues dp =>
       if GoString.Contains pattern dp
       then issues ++
            [ mkIssue "polynomial_backtracking" "high" (whole pattern) dp
                ("Potentially dangerous pattern detected: " +:+ dp) "aaaaaaax"
                "Consolidate or reorder quantifiers" 65 ]
       else issues)
    dangerousPatterns issues.

Definition runFastChecks (re : Regexp) (pattern : string) : list Issue :=
  let issues1 :=
    if 10000 <? GoString.len pattern
    then [ mkIssue "pattern_too_long" "high" (whole pattern) pattern
             ("Pattern exceeds maximum length (10000 characters): "
                +:+ GoString.of_int (GoString.len pattern) +:+ " characters")
             "" "Consider breaking the pattern into multiple smaller patterns" 0 ]
    else [] in
  let nestingDepth := Parser.GetNestingDepth re in
  let issues2 :=
    if 5 <? nestingDepth
    then issues1 ++
         [ mkIssue "excessive_nesting" "high" (whole pattern) pattern
             ("Excessive quantifier nesting depth: "
                +:+ GoString.of_int nestingDepth +:+ " (threshold: 5)")
             "aaa" "Reduce nesting depth by simplifying quantifiers"
             (GoInt.mul nestingDepth 15) ]
    else issues1 in
  let quantifierCount := Parser.CountQuantifiers re in
  let issues3 :=
    if 20 <? quantifierCount
    then issues2 ++
         [ mkIssue "too_many_quantifiers" "medium" (whole pattern) pattern
             ("Excessive quantifiers: "
                +:+ GoString.of_int quantifierCount +:+ " (threshold: 20)")
             "" "Simplify the pattern to reduce quantifier count"
             (GoInt.mul quantifierCount 3) ]
    else issues2 in
  issues3 ++ detectNestedQuantifiers re pattern
    ++ detectOverlappingAlternations re pattern
    ++ detectDangerousPatterns re pattern.

(** *** [nfa_analysis.go] *)

(** [countPathsToState]: the size of the epsilon closure when it exceeds
    3, else 1. *)
Definition countPathsToState (nfa : NFA.NFA) (target : nat) : Z :=
  let closure := NFA.ComputeEpsilonClosure nfa target in
  if 3 <? Z.of_nat (size closure) then Z.of_nat (size closure) else 1.

(** [findAmbiguousStates]: the addresses of [nfa.States], in order. *)
Definition findAmbiguousStates (nfa : NFA.NFA) : list nat :=
  fold_left
    (fun ambiguous state =>
       if 1 <? countPathsToState nfa state then ambiguous ++ [state] else ambiguous)
    (seq 0 (List.length (NFA.States nfa))) [].

(** [hasCycle]: the map [visited] is shared by all calls, so it is
    threaded: a call returns its answer and the map it leaves behind.
    [fuel] bounds the depth of the recursion. *)
Section HasCycleLoop.
(** The recursive call, and the state whose successors are scanned. *)
Variable recur : nat -> gset nat -> option (bool * gset nat).
Variable state : nat.

(** [for _, next := range state.EpsilonTo], then [delete(visited, state)]. *)
Fixpoint hasCycle_loop (nexts : list nat) (visited : gset nat)
  : option (bool * gset nat) :=
  match nexts with
  | [] => Some (false, visited ∖ {[state]})
  | next :: rest =>
      match recur next visited with
      | Some (true, visited') => Some (true, visited')
      | Some (false, visited') => hasCycle_loop rest visited'
      | None => None
      end
  end.
End HasCycleLoop.

Fixpoint hasCycle (fuel : nat) (nfa : NFA.NFA) (state : nat) (visited : gset nat)
  : option (bool * gset nat) :=
  match fuel with
  | O => None
  | S fuel' =>
      if decide (state ∈ visited) then Some (true, visited)
      else
        hasCycle_loop (hasCycle fuel' nfa) state (NFA.epsilonTo nfa state)
          ({[state]} ∪ visited)
  end.

(** [isInQuantifierLoop]: a fresh map per call; the path under
    exploration never repeats a state, which bounds the depth (lemma
    [hasCycle_terminates] below). *)
Definition isInQuantifierLoop (nfa : NFA.NFA) (state : nat) : bool :=
  match hasCycle (S (List.length (NFA.States nfa))) nfa state ∅ with
  | Some (found, _) => found
  | None => false
  end.

Definition generateEDAExample (state : nat) : string := "aaaaaaaaaaaax".

Definition findNestedQuantifiersInNFA (re : Regexp) : list string :=
  Parser.Walk
    (fun node nested =>
       if negb (Parser.IsQuantifier node) then (true, nested)
       else
         (true,
          if existsb Parser.HasQuantifier (Sub node)
          then nested ++ [String_ node] else nested))
    re [].

Definition quantifiersCanOverlap (q1 q2 : Regexp) : bool := true.

(** The scan of the children of one [Concat]; the state is the pair
    [(sequences, currentSeq)]. *)
Definition scanConcat (subs : list Regexp) (st : list (list string) * list string)
  : list (list string) * list string :=
  fold_left
    (fun '(sequences, currentSeq) sub =>
       if Parser.IsQuantifier sub then
         if (0 <? GoInt.len currentSeq) && quantifiersCanOverlap sub sub
         then (sequences, currentSeq ++ [String_ sub])
         else if GoInt.len currentSeq =? 0
              then (sequences, currentSeq ++ [String_ sub])
              else
                ((if 2 <=? GoInt.len currentSeq
                  then sequences ++ [currentSeq] else sequences),
                 [String_ sub])
       else
         ((if 2 <=? GoInt.len currentSeq
           then sequences ++ [currentSeq] else sequences),
          []))
    subs st.

Definition findOverlappingQuantifierSequences (re : Regexp) : list (list string) :=
  fst
    (Parser.Walk
       (fun node '(sequences, currentSeq) =>
          if Op_eqb (Op_ node) OpConcat then
            let '(sequences, currentSeq) := scanConcat (Sub node) (sequences, []) in
            (true,
             ((if 2 <=? GoInt.len currentSeq
               then sequences ++ [currentSeq] else sequences),
              currentSeq))
          else (true, (sequences, currentSeq)))
       re ([], [])).

Definition edaIssue (pattern : string) (state : nat) : Issue :=
  mkIssue "exponential_backtracking" "critical" (whole pattern) pattern
    "Exponential ambiguity detected: multiple paths through quantifier"
    (generateEDAExample state)
    "Remove nested quantifiers or use atomic grouping" 95.

Definition nestedEdaIssue (pattern : string) : Issue :=
  mkIssue "exponential_backtracking" "critical" (whole pattern) pattern
    "Nested quantifiers create exponential ambiguity" "aaaaaaaax"
    "Simplify quantifier nesting" 95.

(** The first loop of [detectEDA], over the ambiguous states. *)
Definition detectEDA_states (nfa : NFA.NFA) (pattern : string) : list Issue :=
  fold_left
    (fun issues state =>
       if isInQuantifierLoop nfa state then issues ++ [edaIssue pattern state]
       else issues)
    (findAmbiguousStates nfa) [].

Definition detectEDA (nfa : NFA.NFA) (re : Regexp) (pattern : string) : list Issue :=
  let issues := detectEDA_states nfa pattern in
  let nestedQuantifiers := findNestedQuantifiersInNFA re in
  if 0 <? GoInt.len nestedQuantifiers
  then issues ++ [nestedEdaIssue pattern]
  else issues.

Definition detectIDA (re : Regexp) (pattern : string) : list Issue :=
  fold_left
    (fun issues seq =>
       let degree := GoInt.len seq in
       if 2 <=? degree then
         let complexity := GoInt.add 50 (GoInt.mul degree 10) in
         let complexity := if 90 <? complexity then 90 else complexity in
         let complexityStr :=
           if degree =? 3 then "O(n³)"
           else if 3 <? degree then "O(n^k)" else "O(n²)" in
         issues ++
           [ mkIssue "polynomial_backtracking" "high" (whole pattern) pattern
               ("Polynomial ambiguity detected: " +:+ complexityStr) "aaaaaaax"
               "Consolidate overlapping quantifiers or use possessive quantifiers"
               complexity ]
       else issues)
    (findOverlappingQuantifierSequences re) [].

(** [AnalyzePattern]: the automaton is stored in the analyzer and read
    back by [detectEDA]; here it is passed on. *)
Definition AnalyzePattern (re : Regexp) (pattern : string)
  : outcome (list Issue) :=
  match NFA.BuildNFA re with
  | Ok nfa => Ok (detectEDA nfa re pattern ++ detectIDA re pattern)
  | Err e => Err e
  | Panic msg => Panic msg
  end.

Definition ComputeAmbiguityDegree (re : Regexp) : Z * bool :=
  let nested := findNestedQuantifiersInNFA re in
  if 0 <? GoInt.len nested then (GoInt.len nested, true)
  else
    let maxDegree :=
      fold_left (fun maxDegree seq =>
                   if maxDegree <? GoInt.len seq then GoInt.len seq else maxDegree)
        (findOverlappingQuantifierSequences re) 0 in
    if 2 <=? maxDegree then (maxDegree, false) else (1, false).

(** [runBalancedChecks]: an error of the NFA analysis is swallowed. *)
Definition runBalancedChecks (re : Regexp) (pattern : string)
  : outcome (list Issue) :=
  match AnalyzePattern re pattern with
  | Ok issues => Ok issues
  | Err _ => Ok []
  | Panic msg => Panic msg
  end.

Definition runThoroughChecks (re : Regexp) (pattern : string) : list Issue := [].

(** [Detect]: the error it returns is always [nil]; a panic of the NFA
    builder is the only other way out. *)
Definition Detect (opts : Options) (re : Regexp) (pattern : string)
  : outcome (list Issue) :=
  if Mode opts =? Fast then Ok (runFastChecks re pattern)
  else if Mode opts =? Balanced then
    match runBalancedChecks re pattern with
    | Ok balanced => Ok (runFastChecks re pattern ++ balanced)
    | Err e => Err e
    | Panic msg => Panic msg
    end
  else if Mode opts =? Thorough then
    match runBalancedChecks re pattern with
    | Ok balanced =>
        Ok (runFastChecks re pattern ++ balanced ++ runThoroughChecks re pattern)
    | Err e => Err e
    | Panic msg => Panic msg
    end
  else Ok [].
End WithLibrary.

End Detector.

(** ** The [pump] package: adversarial input synthesis *)
Module Pump.
Import Syntax Errors.

Record Options : Set :=
  mkOptions { PumpSize : Z; MaxPumpSize : Z; IncludeFailure : bool }.

Record PumpPattern : Set :=
  mkPumpPattern {
      BaseString : string;
      PumpComponent : string;
      FailSuffix : string;
      Description : string;
      Sizes : list Z
    }.

Record Generator : Set := mkGenerator { opts : Options }.

Definition NewGenerator (o : option Options) : Generator :=
  match o with
  | None => mkGenerator (mkOptions 10 100 true)
  | Some o => mkGenerator o
  end.

Fixpoint walk {S : Type} (visitor : Regexp -> S -> bool * S) (re : Regexp) (s : S) : S :=
  let (descend, s1) := visitor re s in
  if descend then fold_left (fun acc sub => walk visitor sub acc) (Sub re) s1
  else s1.

Definition isQuantifier (re : Regexp) : bool :=
  match Op_ re with
  | OpStar | OpPlus | OpQuest | OpRepeat => true
  | _ => false
  end.

Fixpoint containsQuantifier (re : Regexp) : bool :=
  if isQuantifier re then true else existsb containsQuantifier (Sub re).

Definition hasNestedQuantifiers (re : Regexp) : bool :=
  walk (fun node result =>
          if isQuantifier node && existsb containsQuantifier (Sub node)
          then (false, true) else (true, result))
    re false.

(** The scan of the children of a [Concat] for two consecutive
    quantifiers; [consecutive] is the running count. *)
Fixpoint twoConsecutive (subs : list Regexp) (consecutive : Z) : bool :=
  match subs with
  | [] => false
  | sub :: rest =>
      if isQuantifier sub then
        if 2 <=? consecutive + 1 then true else twoConsecutive rest (consecutive + 1)
      else twoConsecutive rest 0
  end.

Definition hasOverlappingQuantifiers (re : Regexp) : bool :=
  walk (fun node result =>
          if Op_eqb (Op_ node) OpConcat && twoConsecutive (Sub node) 0
          then (false, true) else (true, result))
    re false.

(** [string(node.Rune[0])] and the other choices of [extractPumpChar]. *)
Definition extractPumpChar (re : Regexp) : string :=
  let result :=
    walk (fun node result =>
            match Op_ node, Rune node with
            | OpLiteral, r :: _ => (false, GoString.of_rune r)
            | OpCharClass, _ => (false, "a")
            | OpAnyChar, _ | OpAnyCharNotNL, _ => (false, "a")
            | _, _ => (true, result)
            end)
      re "" in
  if String.eqb result "" then "a" else result.

Section WithLibrary.
Context `{Library}.

Definition branchesOverlap (a b : Regexp) : bool :=
  let aStr := String_ a in
  let bStr := String_ b in
  if (0 <? GoString.len aStr) && (0 <? GoString.len bStr)
  then GoString.HasPrefix aStr bStr || GoString.HasPrefix bStr aStr
  else false.

(** The two nested loops over the pairs [i < j] of branches. *)
Fixpoint anyPairOverlaps (subs : list Regexp) : bool :=
  match subs with
  | [] => false
  | a :: rest => existsb (branchesOverlap a) rest || anyPairOverlaps rest
  end.

Definition hasOverlappingAlternation (re : Regexp) : bool :=
  walk (fun node result =>
          if Op_eqb (Op_ node) OpAlternate && (2 <=? GoInt.len (Sub node))
             && anyPairOverlaps (Sub node)
          then (false, true) else (true, result))
    re false.

Definition generateNestedQuantifierPump (re : Regexp) : PumpPattern :=
  mkPumpPattern "" (extractPumpChar re) "x"
    "Nested quantifiers cause exponential backtracking. Each 'a' doubles the number of ways to match."
    [5; 10; 15; 20; 25].

Definition generateOverlappingQuantifierPump (re : Regexp) : PumpPattern :=
  mkPumpPattern "" (extractPumpChar re) "x"
    "Overlapping quantifiers cause polynomial backtracking. Regex tries all ways to split input between quantifiers."
    [10; 20; 30; 40; 50].

Definition generateAlternationPump (re : Regexp) : PumpPattern :=
  mkPumpPattern "" "ab" "x"
    "Overlapping alternation branches cause backtracking. Regex tries each branch at each position."
    [5; 10; 15; 20].

Definition generateGenericPump (re : Regexp) : PumpPattern :=
  let baseChar := extractPumpChar re in
  let baseChar := if String.eqb baseChar "" then "a" else baseChar in
  mkPumpPattern "" baseChar "x" "Generic pump pattern to test regex performance"
    [10; 50; 100].

(** [Generate]: the error it returns is always [nil]. *)
Definition Generate (g : Generator) (re : Regexp) (pattern : string)
  : outcome (list PumpPattern) :=
  let patterns := [] in
  let patterns :=
    if hasNestedQuantifiers re
    then patterns ++ [generateNestedQuantifierPump re] else patterns in
  let patterns :=
    if hasOverlappingQuantifiers re
    then patterns ++ [generateOverlappingQuantifierPump re] else patterns in
  let patterns :=
    if hasOverlappingAlternation re
    then patterns ++ [generateAlternationPump re] else patterns in
  let patterns :=
    if GoInt.len patterns =? 0
    then patterns ++ [generateGenericPump re] else patterns in
  Ok patterns.
End WithLibrary.

Definition GenerateInput (p : PumpPattern) (size : Z) : string :=
  GoString.append_times (Z.to_nat size) (PumpComponent p) (BaseString p) +:+ FailSuffix p.

Definition GenerateSequence (p : PumpPattern) : list string :=
  List.map (GenerateInput p) (Sizes p).

End Pump.

(** ** The [analyzer] package: the complexity scorer *)
Module Analyzer.
Import Syntax Errors.

Record Options : Set := mkOptions { Timeout : Z; MaxComplexityScore : Z }.

(** A value stored in [Metrics], a [map[string]interface{}]. *)
Inductive any : Set := AnyInt (n : Z) | AnyBool (b : bool).

Record ComplexityScore : Type :=
  mkScore {
      Score : Z;
      Complexity : string;
      Description : string;
      TimeClass : string;
      Degree : Z;
      Issues : list string;
      Metrics : gmap string any
    }.

Definition setMetric (key : string) (v : any) (score : ComplexityScore) : ComplexityScore :=
  mkScore (Score score) (Complexity score) (Description score) (TimeClass score)
    (Degree score) (Issues score) (<[key := v]> (Metrics score)).

Definition addScore (n : Z) (score : ComplexityScore) : ComplexityScore :=
  mkScore (GoInt.add (Score score) n) (Complexity score) (Description score)
    (TimeClass score) (Degree score) (Issues score) (Metrics score).

Definition setScore (n : Z) (score : ComplexityScore) : ComplexityScore :=
  mkScore n (Complexity score) (Description score)
    (TimeClass score) (Degree score) (Issues score) (Metrics score).

Definition addIssue (issue : string) (score : ComplexityScore) : ComplexityScore :=
  mkScore (Score score) (Complexity score) (Description score) (TimeClass score)
    (Degree score) (Issues score ++ [issue]) (Metrics score).

Definition setTimeClass (class : string) (score : ComplexityScore) : ComplexityScore :=
  mkScore (Score score) (Complexity score) (Description score) class
    (Degree score) (Issues score) (Metrics score).

Definition setDegree (degree : Z) (score : ComplexityScore) : ComplexityScore :=
  mkScore (Score score) (Complexity score) (Description score) (TimeClass score)
    degree (Issues score) (Metrics score).

Definition setComplexity (complexity description : string) (score : ComplexityScore)
  : ComplexityScore :=
  mkScore (Score score) complexity description (TimeClass score)
    (Degree score) (Issues score) (Metrics score).

Record Analyzer : Set := mkAnalyzer { opts : Options }.

(** [5 * time.Second], in nanoseconds. *)
Definition NewAnalyzer (o : option Options) : Analyzer :=
  match o with
  | None => mkAnalyzer (mkOptions 5000000000 100)
  | Some o => mkAnalyzer o
  end.

Fixpoint walkRegexp {S : Type} (visitor : Regexp -> S -> bool * S) (re : Regexp) (s : S)
  : S :=
  let (descend, s1) := visitor re s in
  if descend then fold_left (fun acc sub => walkRegexp visitor sub acc) (Sub re) s1
  else s1.

Definition isQuantifier (re : Regexp) : bool :=
  match Op_ re with
  | OpStar | OpPlus | OpQuest | OpRepeat => true
  | _ => false
  end.

Fixpoint hasQuantifier (re : Regexp) : bool :=
  if isQuantifier re then true else existsb hasQuantifier (Sub re).

Fixpoint containsQuantifierRecursive (re : Regexp) : bool :=
  if isQuantifier re then true
  else
    match Op_ re with
    | OpConcat | OpCapture => existsb containsQuantifierRecursive (Sub re)
    | _ => false
    end.

Definition isTrulyNested (re : Regexp) : bool :=
  if negb (isQuantifier re) then false
  else
    match Sub re with
    | [] => false
    | sub0 :: _ => containsQuantifierRecursive sub0
    end.

Definition hasNestedQuantifiers (re : Regexp) : bool :=
  walkRegexp
    (fun node result =>
       if isQuantifier node && isTrulyNested node then (false, true) else (true, result))
    re false.

Fixpoint getQuantifierDepthHelper (re : Regexp) (current : Z) : Z :=
  let current := if isQuantifier re then current + 1 else current in
  fold_left
    (fun maxDepth sub =>
       let depth := getQuantifierDepthHelper sub current in
       if maxDepth <? depth then depth else maxDepth)
    (Sub re) current.

Definition getQuantifierDepth (re : Regexp) : Z :=
  if negb (isQuantifier re) then 0
  else
    fold_left
      (fun maxSubDepth sub =>
         let depth := getQuantifierDepthHelper sub 0 in
         if maxSubDepth <? depth then depth else maxSubDepth)
      (Sub re) 0
    + 1.

Definition countQuantifiers (re : Regexp) : Z :=
  walkRegexp (fun node count => (true, if isQuantifier node then count + 1 else count))
    re 0.

(** The scan of the children of a [Concat]: it ends, with [true], at the
    second of two consecutive quantifiers. *)
Fixpoint twoConsecutive (subs : list Regexp) (consecutive : Z) : bool :=
  match subs with
  | [] => false
  | sub :: rest =>
      if isQuantifier sub then
        if 2 <=? consecutive + 1 then true else twoConsecutive rest (consecutive + 1)
      else twoConsecutive rest 0
  end.

Definition hasOverlappingBranches (re : Regexp) : bool :=
  match Op_ re, Sub re with
  | OpAlternate, first :: ((_ :: _) as rest) =>
      existsb (fun sub => Op_eqb (Op_ sub) (Op_ first)) rest
  | _, _ => false
  end.

Definition hasDotStar (re : Regexp) : bool :=
  walkRegexp
    (fun node result =>
       match Op_ node, Sub node with
       | OpStar, sub0 :: _ =>
           match Op_ sub0 with
           | OpAnyChar | OpAnyCharNotNL => (false, true)
           | _ => (true, result)
           end
       | _, _ => (true, result)
       end)
    re false.

(** The walk of [analyzeNesting]: the pair [(maxDepth, nestedCount)]. *)
Definition nestingCounts (re : Regexp) : Z * Z :=
  walkRegexp
    (fun node '(maxDepth, nestedCount) =>
       if isQuantifier node then
         let depth := getQuantifierDepth node in
         (true,
          (if maxDepth <? depth then depth else maxDepth,
           if isTrulyNested node then nestedCount + 1 else nestedCount))
       else (true, (maxDepth, nestedCount)))
    re (0, 0).

Definition analyzeNesting (re : Regexp) (score : ComplexityScore) : ComplexityScore :=
  let '(maxDepth, nestedCount) := nestingCounts re in
  let score := setMetric "nesting_depth" (AnyInt maxDepth) score in
  let score := setMetric "nested_quantifiers" (AnyInt nestedCount) score in
  if 0 <? nestedCount then
    let score := addScore (GoInt.add 40 (GoInt.mul nestedCount 10)) score in
    let score := addIssue "nested quantifiers (exponential risk)" score in
    let score := setTimeClass "exponential" score in
    setDegree (GoInt.add nestedCount 1) score
  else if 3 <? maxDepth then
    let score := addScore (GoInt.add 15 (GoInt.mul maxDepth 5)) score in
    addIssue "deep nesting" score
  else score.

Definition analyzeAlternations_counts (re : Regexp) : Z * Z :=
  walkRegexp
    (fun node '(alternationCount, overlappingAlts) =>
       if Op_eqb (Op_ node) OpAlternate then
         (true,
          (alternationCount + 1,
           if hasOverlappingBranches node then overlappingAlts + 1 else overlappingAlts))
       else (true, (alternationCount, overlappingAlts)))
    re (0, 0).

Definition analyzeAlternations (re : Regexp) (score : ComplexityScore) : ComplexityScore :=
  let '(alternationCount, overlappingAlts) := analyzeAlternations_counts re in
  let score := setMetric "alternations" (AnyInt alternationCount) score in
  let score := setMetric "overlapping_alternations" (AnyInt overlappingAlts) score in
  if 0 <? overlappingAlts then
    let score := addScore (GoInt.add 20 (GoInt.mul overlappingAlts 5)) score in
    addIssue "overlapping alternation branches" score
  else score.

Definition determineComplexity (score : ComplexityScore) : ComplexityScore :=
  if String.eqb (TimeClass score) "exponential" then
    let score :=
      setComplexity "O(2^n)"
        "Exponential time complexity - catastrophic backtracking risk" score in
    if Score score <? 70 then setScore 70 score else score
  else if String.eqb (TimeClass score) "polynomial" then
    let score :=
      if Degree score =? 2 then
        setComplexity "O(n²)"
          "Quadratic time complexity - moderate backtracking risk" score
      else if Degree score =? 3 then
        setComplexity "O(n³)" "Cubic time complexity - high backtracking risk" score
      else
        setComplexity "O(n^k)" "Polynomial time complexity - backtracking risk" score in
    if Score score <? 40 then setScore 40 score else score
  else if String.eqb (TimeClass score) "linear" then
    if Score score <? 20 then
      setComplexity "O(n)" "Linear time complexity - good performance" score
    else
      setComplexity "O(n)" "Linear time complexity with some inefficiencies" score
  else
    if Score score <? 10 then
      setTimeClass "constant"
        (setComplexity "O(1)" "Constant time complexity - excellent performance" score)
    else score.

Section WithLibrary.
Context `{Library}.

Definition findOverlappingQuantifiers (re : Regexp) : list string :=
  walkRegexp
    (fun node sequences =>
       if Op_eqb (Op_ node) OpConcat && twoConsecutive (Sub node) 0
       then (true, sequences ++ [String_ node])
       else (true, sequences))
    re [].

Definition analyzeQuantifiers (re : Regexp) (score : ComplexityScore) : ComplexityScore :=
  let quantifierCount := countQuantifiers re in
  let overlappingSeqs := findOverlappingQuantifiers re in
  let score := setMetric "quantifier_count" (AnyInt quantifierCount) score in
  let score :=
    setMetric "overlapping_sequences" (AnyInt (GoInt.len overlappingSeqs)) score in
  let score :=
    if 0 <? GoInt.len overlappingSeqs then
      let degree := GoInt.add (GoInt.len overlappingSeqs) 1 in
      let baseScore := GoInt.add 25 (GoInt.mul degree 10) in
      let score := addScore baseScore score in
      let score :=
        if degree =? 2 then addIssue "overlapping quantifiers (quadratic)" score
        else if degree =? 3 then addIssue "overlapping quantifiers (cubic)" score
        else addIssue "overlapping quantifiers (high polynomial)" score in
      if String.eqb (TimeClass score) "linear"
      then setDegree degree (setTimeClass "polynomial" score)
      else score
    else score in
  if 15 <? quantifierCount then
    let score := addScore (GoInt.add 10 (GoInt.sub quantifierCount 15)) score in
    addIssue "excessive quantifiers" score
  else score.

Definition analyzePattern (re : Regexp) (score : ComplexityScore) : ComplexityScore :=
  let patternLen := GoString.len (String_ re) in
  let score := setMetric "pattern_length" (AnyInt patternLen) score in
  let score :=
    if 500 <? patternLen
    then addIssue "very long pattern" (addScore 10 score) else score in
  if hasDotStar re
  then setMetric "has_dotstar" (AnyBool true) (addScore 5 score)
  else score.

(** The score before [determineComplexity] and the cap. *)
Definition accumulate (re : Regexp) : ComplexityScore :=
  let score := mkScore 0 "O(n)" "Linear time complexity" "linear" 1 [] ∅ in
  let score := analyzeNesting re score in
  let score := analyzeQuantifiers re score in
  let score := analyzeAlternations re score in
  analyzePattern re score.

(** [Analyze]: the error it returns is always [nil]. *)
Definition Analyze (a : Analyzer) (re : Regexp) (pattern : string)
  : outcome ComplexityScore :=
  let score := determineComplexity (accumulate re) in
  let score :=
    if MaxComplexityScore (opts a) <? Score score
    then setScore (MaxComplexityScore (opts a)) score else score in
  Ok score.

Definition EstimateComplexity (a : Analyzer) (re : Regexp) : string :=
  if hasNestedQuantifiers re then "O(2^n)"
  else
    let overlapping := findOverlappingQuantifiers re in
    if 0 <? GoInt.len overlapping then
      let degree := GoInt.add (GoInt.len overlapping) 1 in
      if degree =? 2 then "O(n²)"
      else if degree =? 3 then "O(n³)" else "O(n^k)"
    else if 0 <? countQuantifiers re then "O(n)" else "O(1)".
End WithLibrary.

End Analyzer.

(** ** The public package [regret] *)
Module Regret.
Import Syntax Errors.

Definition ValidationMode : Set := Z.
Definition Fast : ValidationMode := 0.
Definition Balanced : ValidationMode := 1.
Definition Thorough : ValidationMode := 2.

(** [CheckFlags]: a [uint32] bit mask, [1 << iota]. *)
Definition CheckFlags : Set := Z.
Definition CheckNestedQuantifiers : CheckFlags := Z.shiftl 1 0.
Definition CheckOverlappingAlternation : CheckFlags := Z.shiftl 1 1.
Definition CheckCatastrophicBacktrack : CheckFlags := Z.shiftl 1 2.
Definition CheckUnboundedRepetition : CheckFlags := Z.shiftl 1 3.
Definition CheckExponentialPaths : CheckFlags := Z.shiftl 1 4.
Definition CheckComplexityScore : CheckFlags := Z.shiftl 1 5.
Definition CheckMemoryUsage : CheckFlags := Z.shiftl 1 6.
Definition CheckNFAAmbiguity : CheckFlags := Z.shiftl 1 7.
Definition CheckPolynomialDegree : CheckFlags := Z.shiftl 1 8.
Definition CheckContextAwareness : CheckFlags := Z.shiftl 1 9.
Definition CheckAll : CheckFlags := 2 ^ 32 - 1.
Definition CheckDefault : CheckFlags :=
  Z.lor CheckNestedQuantifiers
    (Z.lor CheckOverlappingAlternation
       (Z.lor CheckCatastrophicBacktrack CheckNFAAmbiguity)).

Record Options : Set :=
  mkOptions {
      Mode : ValidationMode;
      Timeout : Z;               (* a [time.Duration], in nanoseconds *)
      Checks : CheckFlags;
      MaxComplexityScore : Z;
      MaxPatternLength : Z;
      MaxNestingDepth : Z;
      MaxQuantifiers : Z;
      StrictMode : bool;
      AllowUnsafe : bool
    }.

Definition DefaultOptions : Options :=
  mkOptions Balanced 100000000 CheckDefault 70 1000 3 20 false false.

Definition FastOptions : Options :=
  mkOptions Fast 10000000
    (Z.lor CheckNestedQuantifiers CheckCatastrophicBacktrack) 70 1000 3 20 false false.

Definition ThoroughOptions : Options :=
  mkOptions Thorough 1000000000 CheckAll 70 2000 5 50 true false.

Definition setStrictMode (b : bool) (o : Options) : Options :=
  mkOptions (Mode o) (Timeout o) (Checks o) (MaxComplexityScore o) (MaxPatternLength o)
    (MaxNestingDepth o) (MaxQuantifiers o) b (AllowUnsafe o).

Definition setChecks (c : CheckFlags) (o : Options) : Options :=
  mkOptions (Mode o) (Timeout o) c (MaxComplexityScore o) (MaxPatternLength o)
    (MaxNestingDepth o) (MaxQuantifiers o) (StrictMode o) (AllowUnsafe o).

Inductive Severity : Set := Critical | High | Medium | Low | Info.

Inductive IssueType : Set :=
| NestedQuantifiers | OverlappingAlternation | RepeatedCaptureGroup
| ExponentialBacktracking | PolynomialBacktracking | UnboundedRepetition
| AmbiguousPattern | ComplexityThresholdExceeded | ContextuallyDangerous.

Record Position : Set := mkPosition { Start : Z; End : Z; Line : Z; Column : Z }.

Record Issue : Type :=
  mkIssue {
      Type_ : IssueType;
      Severity_ : Severity;
      Position_ : Position;
      Pattern : string;
      Message : string; Example : string;
      Suggestion : string;
      Complexity_ : Z;
      Details : gmap string Analyzer.any
    }.

Inductive Complexity : Set :=
| Constant | Linear | Quadratic | Cubic | Polynomial | Exponential | Unknown.

Definition Complexity_String (c : Complexity) : string :=
  match c with
  | Constant => "O(1)"
  | Linear => "O(n)"
  | Quadratic => "O(n²)"
  | Cubic => "O(n³)"
  | Polynomial => "O(n^k)"
  | Exponential => "O(2^n)"
  | Unknown => "O(?)"
  end.

Record Metrics : Set :=
  mkMetrics { NestingDepth : Z; QuantifierCount : Z; AlternationCount : Z }.

Record ComplexityScore : Set :=
  mkComplexityScore {
      Overall : Z;
      TimeComplexity : Complexity;
      SpaceComplexity : Complexity;
      HasEDA : bool;
      HasIDA : bool;
      PolynomialDegree : Z;
      Metrics_ : Metrics;
      WorstCaseInput : string;
      PumpPattern_ : list string;   (* the field [PumpPattern]: the pump components *)
      Explanation : string;
      Safe : bool
    }.

Record PumpPattern : Set :=
  mkPumpPattern {
      Prefix : string;
      Pumps : list string;
      Suffix : string;
      Interleave : bool;
      Description : string
    }.

(** [for _, pump := range p.Pumps { result += pump }]. *)
Definition appendAll (pumps : list string) (result : string) : string :=
  fold_left (fun result pump => result +:+ pump) pumps result.

(** [for i := 0; i < size; i++ { <one round of appendAll> }]. *)
Fixpoint interleaved (size : nat) (pumps : list string) (result : string) : string :=
  match size with
  | O => result
  | S size' => interleaved size' pumps (appendAll pumps result)
  end.

(** [for _, pump := range p.Pumps { for i := 0; i < size; i++ { result += pump } }]. *)
Definition concatenated (size : nat) (pumps : list string) (result : string) : string :=
  fold_left (fun result pump => GoString.append_times size pump result) pumps result.

Definition Generate (p : PumpPattern) (size : Z) : string :=
  if size <=? 0 then Prefix p +:+ Suffix p
  else
    let result := Prefix p in
    let result :=
      if Interleave p then interleaved (Z.to_nat size) (Pumps p) result
      else concatenated (Z.to_nat size) (Pumps p) result in
    result +:+ Suffix p.

(** [for size := start; size <= end; size += step]; [count] bounds the
    number of rounds and is chosen by [GenerateSequence]. *)
Fixpoint GenerateSequence_loop (count : nat) (p : PumpPattern) (size end_ step : Z)
  (sequence : list string) : list string :=
  match count with
  | O => sequence
  | S count' =>
      if size <=? end_
      then GenerateSequence_loop count' p (size + step) end_ step
             (sequence ++ [Generate p size])
      else sequence
  end.

Definition GenerateSequence (p : PumpPattern) (start end_ step : Z) : list string :=
  let start := if start <=? 0 then 1 else start in
  let step := if step <=? 0 then 1 else step in
  GenerateSequence_loop (Z.to_nat (end_ - start + 1)) p start end_ step [].

Definition issueTypeFromString (s : string) : IssueType :=
  if String.eqb s "nested_quantifiers" then NestedQuantifiers
  else if String.eqb s "overlapping_alternation" then OverlappingAlternation
  else if String.eqb s "exponential_backtracking" then ExponentialBacktracking
  else if String.eqb s "polynomial_backtracking" then PolynomialBacktracking
  else AmbiguousPattern.

Definition severityFromString (s : string) : Severity :=
  if String.eqb s "critical" then Critical
  else if String.eqb s "high" then High
  else if String.eqb s "medium" then Medium
  else if String.eqb s "low" then Low
  else Info.

Definition convertIssue (iss : Detector.Issue) : Issue :=
  let pos := Detector.Position_ iss in
  mkIssue (issueTypeFromString (Detector.Type_ iss))
    (severityFromString (Detector.Severity iss))
    (mkPosition (Detector.Start pos) (Detector.End pos) (Detector.Line pos)
       (Detector.Column pos))
    (Detector.Pattern iss) (Detector.Message iss) (Detector.Example iss)
    (Detector.Suggestion iss) (Detector.Complexity iss) ∅.

Definition convertIssues (internal : list Detector.Issue) : list Issue :=
  List.map convertIssue internal.

Definition complexityFromString (s : string) : Complexity :=
  if String.eqb s "O(1)" then Constant
  else if String.eqb s "O(n)" then Linear
  else if String.eqb s "O(n²)" then Quadratic
  else if String.eqb s "O(n³)" then Cubic
  else if String.eqb s "O(n^k)" then Polynomial
  else if String.eqb s "O(2^n)" then Exponential
  else Unknown.

Definition getMetricInt (metrics : gmap string Analyzer.any) (key : string) : Z :=
  match metrics !! key with
  | Some (Analyzer.AnyInt intVal) => intVal
  | _ => 0
  end.

Section WithLibrary.
Context `{Library}.

(** *** The validator *)

Record validator : Set :=
  mkValidator {
      v_opts : Options;
      v_parser : Parser.Parser;
      v_detect : Detector.Options   (* the detector is its options *)
    }.

Definition newValidator (o : Options) : validator :=
  mkValidator o Parser.NewParser (Detector.mkOptions (Mode o) (Checks o)).

Definition validate (v : validator) (pattern : string) : outcome (list Issue) :=
  match Parser.Parse (v_parser v) pattern with
  | inr err => Err err
  | inl re =>
      match Detector.Detect (v_detect v) re pattern with
      | Ok internalIssues => Ok (convertIssues internalIssues)
      | Err err => Err err
      | Panic msg => Panic msg
      end
  end.

(** [ValidateWithOptions]; [None] is the [nil] options pointer. *)
Definition ValidateWithOptions (pattern : string) (o : option Options)
  : outcome (list Issue) :=
  let o := match o with None => DefaultOptions | Some o => o end in
  if AllowUnsafe o then Ok []
  else if (0 <? MaxPatternLength o) && (MaxPatternLength o <? GoString.len pattern)
       then Err (Errorf regret_ErrPatternTooLong
                   (GoString.of_int (GoString.len pattern) +:+ " > "
                      +:+ GoString.of_int (MaxPatternLength o)))
       else validate (newValidator o) pattern.

Definition Validate (pattern : string) : outcome (list Issue) :=
  ValidateWithOptions pattern (Some DefaultOptions).

Definition IsSafe (pattern : string) : outcome bool :=
  match ValidateWithOptions pattern (Some (setStrictMode true FastOptions)) with
  | Ok issues => Ok (GoInt.len issues =? 0)
  | Err _ => Ok false
  | Panic msg => Panic msg
  end.

(** *** The pump generator wrapper *)

Definition pumpGen_generate (pattern : string) : outcome PumpPattern :=
  match Parser.Parse Parser.NewParser pattern with
  | inr err => Err err
  | inl re =>
      match Pump.Generate (Pump.NewGenerator (Some (Pump.mkOptions 10 100 true)))
              re pattern with
      | Ok [] => Err (plainError "no pump pattern generated")
      | Ok (result :: _) =>
          Ok (mkPumpPattern (Pump.BaseString result) [Pump.PumpComponent result]
                (Pump.FailSuffix result) false (Pump.Description result))
      | Err err => Err err
      | Panic msg => Panic msg
      end
  end.

(** *** The analyzer wrapper *)

Definition analyze (o : Options) (pattern : string) : outcome ComplexityScore :=
  match Parser.Parse Parser.NewParser pattern with
  | inr err => Err err
  | inl re =>
      let impl :=
        Analyzer.NewAnalyzer
          (Some (Analyzer.mkOptions (Timeout o) (MaxComplexityScore o))) in
      match Analyzer.Analyze impl re pattern with
      | Err err => Err err
      | Panic msg => Panic msg
      | Ok result =>
          let complexity := complexityFromString (Analyzer.Complexity result) in
          let pumped : outcome (list string * string) :=
            if 50 <=? Analyzer.Score result then
              match pumpGen_generate pattern with
              | Ok pump =>
                  Ok (Pumps pump,
                      if 0 <? GoInt.len (Pumps pump) then Generate pump 20 else "")
              | Err _ => Ok ([], "")
              | Panic msg => Panic msg
              end
            else Ok ([], "") in
          match pumped with
          | Err err => Err err
          | Panic msg => Panic msg
          | Ok (pumpComponents, worstCaseInput) =>
              Ok (mkComplexityScore
                    (Analyzer.Score result)
                    complexity
                    Linear
                    (String.eqb (Analyzer.TimeClass result) "exponential")
                    (String.eqb (Analyzer.TimeClass result) "polynomial")
                    (Analyzer.Degree result)
                    (mkMetrics
                       (getMetricInt (Analyzer.Metrics result) "nesting_depth")
                       (getMetricInt (Analyzer.Metrics result) "quantifier_count")
                       (getMetricInt (Analyzer.Metrics result) "alternations"))
                    worstCaseInput
                    pumpComponents
                    (Analyzer.Description result)
                    (Analyzer.Score result <? 50))
          end
      end
  end.

Definition AnalyzeComplexity (pattern : string) : outcome ComplexityScore :=
  analyze (setChecks CheckAll ThoroughOptions) pattern.
End WithLibrary.

End Regret.

(** ** Sample patterns

    The trees [regexp/syntax] produces ([Parse] with the [Perl] flags, then
    [Simplify]) for the patterns the examples below run on, and a [Library]
    that answers for exactly these patterns. *)
Module Samples.
Import Syntax.

Definition literal (runes : list Z) : Regexp :=
  mkRegexp OpLiteral Perl [] runes 0 0 0 "".
Definition capture (index : Z) (sub : Regexp) : Regexp :=
  mkRegexp OpCapture Perl [sub] [] 0 0 index "".
Definition star (sub : Regexp) : Regexp := mkRegexp OpStar Perl [sub] [] 0 0 0 "".
Definition plus (sub : Regexp) : Regexp := mkRegexp OpPlus Perl [sub] [] 0 0 0 "".
Definition concat (subs : list Regexp) : Regexp := mkRegexp OpConcat 0 subs [] 0 0 0 "".
Definition alternate (subs : list Regexp) : Regexp :=
  mkRegexp OpAlternate 0 subs [] 0 0 0 "".

(** The pattern "hello". *)
Definition re_hello : Regexp := literal [104; 101; 108; 108; 111].
(** The pattern "(a+)+". *)
Definition re_nested_plus : Regexp := plus (capture 1 (plus (literal [97]))).
(** The starred capture group around [a*] (third entry of [table]). *)
Definition re_nested_star : Regexp := star (capture 1 (star (literal [97]))).
(** The pattern "a*a*". *)
Definition re_two_stars : Regexp := concat [star (literal [97]); star (literal [97])].
(** The pattern "(a+)+b*c*": a nested quantifier next to consecutive ones. *)
Definition re_nested_and_overlapping : Regexp :=
  concat [re_nested_plus; star (literal [98]); star (literal [99])].
(** The pattern "(a+|b)*c*d*": a quantifier under an alternation under a
    quantifier, next to two consecutive quantifiers. *)
Definition re_quantified_alternation : Regexp :=
  concat [ star (capture 1 (alternate [plus (literal [97]); literal [98]]));
           star (literal [99]); star (literal [100]) ].
(** The pattern "(ab)|(ac)|(ad)". *)
Definition re_three_branches : Regexp :=
  alternate [ capture 1 (literal [97; 98]); capture 2 (literal [97; 99]);
              capture 3 (literal [97; 100]) ].

Definition table : list (string * Regexp) :=
  [ ("hello", re_hello);
    ("(a+)+", re_nested_plus);
    ("(a*)*", re_nested_star);
    ("a*a*", re_two_stars);
    ("(a+)+b*c*", re_nested_and_overlapping);
    ("(a+|b)*c*d*", re_quantified_alternation);
    ("(ab)|(ac)|(ad)", re_three_branches) ].

Fixpoint lookup (pattern : string) (t : list (string * Regexp)) : option Regexp :=
  match t with
  | [] => None
  | (p, re) :: t' => if String.eqb p pattern then Some re else lookup pattern t'
  end.

(** The unterminated class "[" is answered with the error text of
    [syntax.Parse]. *)
Definition sample_Parse (pattern : string) (flags : Z) : Regexp + string :=
  match lookup pattern table with
  | Some re => inl re
  | None =>
      if String.eqb pattern "["
      then inr "error parsing regexp: missing closing ]: `[`"
      else inr ("error parsing regexp: not a sample pattern: `" +:+ pattern +:+ "`")
  end.

Definition needsGroup (re : Regexp) : bool :=
  match Op_ re, Rune re with
  | OpLiteral, [_] => false
  | OpCapture, _ | OpCharClass, _ | OpAnyChar, _ | OpAnyCharNotNL, _ => false
  | _, _ => true
  end.

(** The printer, on the operators of the sample trees. *)
Fixpoint sample_String (re : Regexp) : string :=
  let atom (sub : Regexp) (s : string) : string :=
    if needsGroup sub then "(?:" +:+ s +:+ ")" else s in
  match Op_ re, Sub re with
  | OpLiteral, _ => fold_left (fun acc r => acc +:+ GoString.of_rune r) (Rune re) ""
  | OpCapture, sub :: _ => "(" +:+ sample_String sub +:+ ")"
  | OpStar, sub :: _ => atom sub (sample_String sub) +:+ "*"
  | OpPlus, sub :: _ => atom sub (sample_String sub) +:+ "+"
  | OpQuest, sub :: _ => atom sub (sample_String sub) +:+ "?"
  | OpConcat, subs => fold_left (fun acc sub => acc +:+ sample_String sub) subs ""
  | OpAlternate, sub :: subs =>
      fold_left (fun acc sub => acc +:+ "|" +:+ sample_String sub) subs (sample_String sub)
  | OpAnyCharNotNL, _ => "."
  | OpAnyChar, _ => "(?s:.)"
  | OpEmptyMatch, _ => "(?:)"
  | _, _ => ""
  end.

(** [Simplify] returns the sample trees as they are: they hold no counted
    repetition and no empty operand. *)
Definition sample_Library : Library :=
  {| syntax_Parse := sample_Parse;
     Simplify := fun re => re;
     String_ := sample_String |}.




End Samples.

(** ** Notions the properties are stated with *)
Module Spec.
Import Errors.

(** The total length of the pump components. *)
Definition pumps_len (pumps : list string) : Z :=
  fold_right (fun pump acc => GoString.len pump + acc) 0 pumps.

(** The classes the accumulation phase can leave in [TimeClass]. *)
Definition scored_class (class : string) : Prop :=
  class = "linear" \/ class = "polynomial" \/ class = "exponential".

(** The number of truly nested quantifiers, as [analyzeNesting] counts. *)
Definition nestedCount (re : Syntax.Regexp) : Z := snd (Analyzer.nestingCounts re).

(** The score [Analyze] returns: [determineComplexity] of the accumulated
    score, capped.  The cap changes the [Score] only. *)
Definition capped (max : Z) (score : Analyzer.ComplexityScore)
  : Analyzer.ComplexityScore :=
  if max <? Analyzer.Score score then Analyzer.setScore max score else score.

(** The options [ValidateWithOptions] works with. *)
Definition effective (o : option Regret.Options) : Regret.Options :=
  match o with None => Regret.DefaultOptions | Some o => o end.


Section WithLibrary.
Context `{L : Syntax.Library}.

(** The degree [analyzeQuantifiers] computes from the overlapping runs. *)
Definition overlapDegree (re : Syntax.Regexp) : Z :=
  GoInt.add (GoInt.len (Analyzer.findOverlappingQuantifiers re)) 1.

(** The test under which [analyzeQuantifiers] changes the class. *)
Definition turnsPolynomial (re : Syntax.Regexp) (score : Analyzer.ComplexityScore)
  : bool :=
  (0 <? GoInt.len (Analyzer.findOverlappingQuantifiers re))
  && String.eqb (Analyzer.TimeClass score) "linear".

(** The rule for the constant class, as the specification words it. *)
Definition constant_exactly_when (a : Analyzer.Analyzer) (re : Syntax.Regexp)
  (pattern : string) : Prop :=
  forall result,
    Analyzer.Analyze a re pattern = Ok result ->
    (Analyzer.TimeClass result = "constant" /\ Analyzer.Complexity result = "O(1)")
    <-> (Analyzer.Score (Analyzer.accumulate re) < 10
         /\ Analyzer.TimeClass (Analyzer.accumulate re) = "linear"
         /\ Analyzer.hasQuantifier re = false).

(** The number of branches that overlap a later branch. *)
Fixpoint overlappingFirsts (subs : list Syntax.Regexp) : nat :=
  match subs with
  | [] => O
  | a :: rest =>
      ((if Detector.overlap_inner a rest then 1 else 0) + overlappingFirsts rest)%nat
  end.

End WithLibrary.

(** Every character class of the tree lists its ranges as pairs of runes,
    as the trees of [regexp/syntax] do. *)
Fixpoint classesPaired (re : Syntax.Regexp) : bool :=
  match Syntax.Op_ re with
  | Syntax.OpCharClass => Nat.even (List.length (Syntax.Rune re))
  | _ => true
  end
  && forallb classesPaired (Syntax.Sub re).

(** A builder that ends with a value on every automaton. *)
Definition total {A : Type} (m : NFA.Build A) : Prop :=
  forall nfa, exists a nfa', m nfa = Ok (a, nfa').

(** One epsilon edge. *)
Definition eps (nfa : NFA.NFA) : relation nat :=
  fun x y => y ∈ NFA.epsilonTo nfa x.

(** A state lies on an epsilon cycle. *)
Definition on_epsilon_cycle (nfa : NFA.NFA) (state : nat) : Prop :=
  tc (eps nfa) state state.

(** An epsilon cycle can be reached from a state along epsilon edges. *)
Definition reaches_epsilon_cycle (nfa : NFA.NFA) (state : nat) : Prop :=
  exists c, rtc (eps nfa) state c /\ tc (eps nfa) c c.

(** A state is ambiguous when its epsilon closure holds more than 3 states. *)
Definition ambiguous (nfa : NFA.NFA) (state : nat) : bool :=
  3 <? Z.of_nat (size (NFA.ComputeEpsilonClosure nfa state)).


(** The states of the arena that a set does not hold yet. *)
Definition unmarked (nfa : NFA.NFA) (marked : gset nat) : nat :=
  size (set_seq 0 (List.length (NFA.States nfa)) ∖ marked : gset nat).

(** What a call of [computeEpsilonClosureHelper] on [state] with the marks
    [C] achieves. *)
Definition marks_from (nfa : NFA.NFA) (state : nat) (C C' : gset nat) : Prop :=
  C ⊆ C'
  /\ state ∈ C'
  /\ (forall x, x ∈ C' -> x ∉ C -> forall y, eps nfa x y -> y ∈ C')
  /\ (forall x, x ∈ C' -> x ∈ C \/ rtc (eps nfa) state x).

(** Starting at [state], the search of [hasCycle] meets a state of
    [visited] or a state on a cycle. *)
Definition hits (nfa : NFA.NFA) (state : nat) (visited : gset nat) : Prop :=
  exists x, rtc (eps nfa) state x /\ (x ∈ visited \/ tc (eps nfa) x x).

(** Nothing reachable from [state] is in [visited] or on a cycle. *)
Definition clear (nfa : NFA.NFA) (state : nat) (visited : gset nat) : Prop :=
  forall x, rtc (eps nfa) state x -> (x ∉ visited) /\ ~ tc (eps nfa) x x.

(** The contract of one call of [hasCycle]. *)
Definition hasCycle_result (nfa : NFA.NFA) (state : nat) (visited : gset nat)
  (r : option (bool * gset nat)) : Prop :=
  exists found visited',
    r = Some (found, visited')
    /\ (found = false -> visited' = visited /\ clear nfa state visited)
    /\ (found = true -> hits nfa state visited).

End Spec.

(** * Properties *)
Import Spec.

(** ** Strings *)
Section StringFacts.

Lemma append_nil_l (t : string) : "" +:+ t = t.
Proof. reflexivity. Qed.

Lemma append_cons (c : ascii) (s t : string) :
  String c s +:+ t = String c (s +:+ t).
Proof. reflexivity. Qed.

Lemma len_append (s t : string) :
  GoString.len (s +:+ t) = GoString.len s + GoString.len t.
Proof.
  unfold GoString.len. induction s as [|c s IH].
  - rewrite append_nil_l. simpl. lia.
  - rewrite append_cons. cbn [String.length]. rewrite !Nat2Z.inj_succ. lia.
Qed.

Lemma len_nonneg (s : string) : 0 <= GoString.len s.
Proof. unfold GoString.len. lia. Qed.

Lemma len_zero_empty (s : string) : GoString.len s = 0 -> s = "".
Proof. destruct s; [reflexivity|]. unfold GoString.len. simpl. lia. Qed.

Lemma len_append_times (n : nat) (p acc : string) :
  GoString.len (GoString.append_times n p acc)
  = GoString.len acc + Z.of_nat n * GoString.len p.
Proof.
  revert acc. induction n as [|n IH]; intros acc.
  - simpl. lia.
  - cbn [GoString.append_times]. rewrite IH, len_append. lia.
Qed.

Lemma append_nonempty_r (s t : string) : t <> "" -> s +:+ t <> "".
Proof.
  intros Ht Hst. apply Ht, len_zero_empty.
  pose proof (len_append s t) as Hlen. rewrite Hst in Hlen.
  pose proof (len_nonneg s). pose proof (len_nonneg t).
  change (GoString.len "") with 0 in Hlen. lia.
Qed.

Lemma of_rune_nonempty (r : Z) : GoString.of_rune r <> "".
Proof. unfold GoString.of_rune. repeat case_match; discriminate. Qed.

End StringFacts.

(** ** [PumpPattern.Generate] *)
Section PumpPatternFacts.
Import Regret.

Lemma len_concatenated (size : nat) (pumps : list string) (result : string) :
  GoString.len (concatenated size pumps result)
  = GoString.len result + Z.of_nat size * pumps_len pumps.
Proof.
  unfold concatenated. revert result.
  induction pumps as [|pump pumps IH]; intros result; simpl.
  - lia.
  - rewrite IH, len_append_times. lia.
Qed.

Lemma len_appendAll (pumps : list string) (result : string) :
  GoString.len (appendAll pumps result) = GoString.len result + pumps_len pumps.
Proof.
  unfold appendAll. revert result.
  induction pumps as [|pump pumps IH]; intros result; simpl.
  - lia.
  - rewrite IH, len_append. lia.
Qed.

Lemma len_interleaved (size : nat) (pumps : list string) (result : string) :
  GoString.len (interleaved size pumps result)
  = GoString.len result + Z.of_nat size * pumps_len pumps.
Proof.
  revert result. induction size as [|size IH]; intros result.
  - simpl. lia.
  - cbn [interleaved]. rewrite IH, len_appendAll. lia.
Qed.

(** C8. With [Interleave = false], [Generate 0] is exactly [Prefix] followed
    by [Suffix], and for every [n >= 0] the length of [Generate n] is
    [|Prefix| + n * (sum of the lengths of the pumps) + |Suffix|]. *)
Theorem Generate_not_interleaved (p : PumpPattern) (n : Z) :
  Interleave p = false ->
  0 <= n ->
  Generate p 0 = Prefix p +:+ Suffix p
  /\ GoString.len (Generate p n)
     = GoString.len (Prefix p) + n * pumps_len (Pumps p) + GoString.len (Suffix p).
Proof.
  intros Hmode Hn. split; [reflexivity|].
  unfold Generate. destruct (n <=? 0) eqn:Hle.
  - apply Z.leb_le in Hle. assert (n = 0) as -> by lia.
    rewrite len_append. lia.
  - apply Z.leb_gt in Hle. rewrite Hmode, len_append, len_concatenated.
    rewrite Z2Nat.id by lia. lia.
Qed.

Lemma Generate_not_interleaved_witness :
  let p := mkPumpPattern "" ["a"; "bc"] "x" false "two pumps" in
  Generate p 0 = "x"
  /\ GoString.len (Generate p 3) = 0 + 3 * 3 + 1.
Proof.
  intros p.
  exact (Generate_not_interleaved p 3 eq_refl ltac:(lia)).
Defined.

End PumpPatternFacts.

(** ** The pump generator *)
Section PumpFacts.
Context `{L : Syntax.Library}.
Import Pump.

Lemma extractPumpChar_nonempty (re : Syntax.Regexp) : extractPumpChar re <> "".
Proof.
  unfold extractPumpChar.
  destruct (String.eqb _ "") eqn:Heq; [discriminate|].
  intros Hempty. rewrite Hempty in Heq. discriminate.
Qed.

(** [Generate] always returns at least one pump; whichever comes first has
    an empty base, a non-empty component and the failing suffix "x". *)
Lemma Generate_first (g : Generator) (re : Syntax.Regexp) (pattern : string) :
  exists first rest,
    Generate g re pattern = Errors.Ok (first :: rest)
    /\ BaseString first = ""
    /\ PumpComponent first <> ""
    /\ FailSuffix first = "x".
Proof.
  pose proof (extractPumpChar_nonempty re) as Hchar.
  unfold Generate.
  destruct (hasNestedQuantifiers re), (hasOverlappingQuantifiers re),
    (hasOverlappingAlternation re); cbn;
    eexists _, _; (split; [reflexivity|]); cbn; repeat split; try assumption;
    try discriminate.
  destruct (String.eqb (extractPumpChar re) ""); [discriminate|assumption].
Qed.

End PumpFacts.

(** ** The complexity scorer *)
Section AnalyzerFacts.
Context `{L : Syntax.Library}.
Import Analyzer.

Lemma analyzeNesting_TimeClass re score :
  TimeClass (analyzeNesting re score)
  = if 0 <? nestedCount re then "exponential" else TimeClass score.
Proof.
  unfold analyzeNesting, nestedCount.
  destruct (nestingCounts re) as [maxDepth nested]; cbn [snd].
  destruct (0 <? nested); [reflexivity|].
  destruct (3 <? maxDepth); reflexivity.
Qed.

Lemma analyzeNesting_Degree re score :
  Degree (analyzeNesting re score)
  = if 0 <? nestedCount re then GoInt.add (nestedCount re) 1 else Degree score.
Proof.
  unfold analyzeNesting, nestedCount.
  destruct (nestingCounts re) as [maxDepth nested]; cbn [snd].
  destruct (0 <? nested); [reflexivity|].
  destruct (3 <? maxDepth); reflexivity.
Qed.

Lemma analyzeQuantifiers_TimeClass re score :
  TimeClass (analyzeQuantifiers re score)
  = if turnsPolynomial re score then "polynomial" else TimeClass score.
Proof.
  unfold analyzeQuantifiers, turnsPolynomial.
  destruct (0 <? GoInt.len (findOverlappingQuantifiers re)); cbn [andb].
  - destruct (GoInt.add _ 1 =? 2); [|destruct (GoInt.add _ 1 =? 3)];
      cbn [TimeClass addIssue addScore setMetric];
      destruct (String.eqb (TimeClass score) "linear");
      destruct (15 <? countQuantifiers re); reflexivity.
  - destruct (15 <? countQuantifiers re); reflexivity.
Qed.

Lemma analyzeQuantifiers_Degree re score :
  Degree (analyzeQuantifiers re score)
  = if turnsPolynomial re score then overlapDegree re else Degree score.
Proof.
  unfold analyzeQuantifiers, turnsPolynomial, overlapDegree.
  destruct (0 <? GoInt.len (findOverlappingQuantifiers re)); cbn [andb].
  - destruct (GoInt.add _ 1 =? 2); [|destruct (GoInt.add _ 1 =? 3)];
      cbn [TimeClass addIssue addScore setMetric];
      destruct (String.eqb (TimeClass score) "linear");
      destruct (15 <? countQuantifiers re); reflexivity.
  - destruct (15 <? countQuantifiers re); reflexivity.
Qed.

Lemma analyzeAlternations_TimeClass_Degree re score :
  TimeClass (analyzeAlternations re score) = TimeClass score
  /\ Degree (analyzeAlternations re score) = Degree score.
Proof.
  unfold analyzeAlternations.
  destruct (analyzeAlternations_counts re) as [alts overlapping].
  destruct (0 <? overlapping); split; reflexivity.
Qed.

Lemma analyzePattern_TimeClass_Degree re score :
  TimeClass (analyzePattern re score) = TimeClass score
  /\ Degree (analyzePattern re score) = Degree score.
Proof.
  unfold analyzePattern.
  destruct (500 <? GoString.len (Syntax.String_ re)), (hasDotStar re);
    split; reflexivity.
Qed.

(** The class and the degree the accumulation phase ends with. *)
Lemma accumulate_TimeClass re :
  TimeClass (accumulate re)
  = if 0 <? nestedCount re then "exponential"
    else if 0 <? GoInt.len (findOverlappingQuantifiers re) then "polynomial"
         else "linear".
Proof.
  unfold accumulate.
  rewrite (proj1 (analyzePattern_TimeClass_Degree _ _)).
  rewrite (proj1 (analyzeAlternations_TimeClass_Degree _ _)).
  rewrite analyzeQuantifiers_TimeClass. unfold turnsPolynomial.
  rewrite analyzeNesting_TimeClass. cbn [TimeClass].
  destruct (0 <? nestedCount re);
    destruct (0 <? GoInt.len (findOverlappingQuantifiers re)); reflexivity.
Qed.

Lemma accumulate_Degree re :
  Degree (accumulate re)
  = if 0 <? nestedCount re then GoInt.add (nestedCount re) 1
    else if 0 <? GoInt.len (findOverlappingQuantifiers re) then overlapDegree re
         else 1.
Proof.
  unfold accumulate.
  rewrite (proj2 (analyzePattern_TimeClass_Degree _ _)).
  rewrite (proj2 (analyzeAlternations_TimeClass_Degree _ _)).
  rewrite analyzeQuantifiers_Degree. unfold turnsPolynomial.
  rewrite analyzeNesting_TimeClass, analyzeNesting_Degree. cbn [TimeClass Degree].
  destruct (0 <? nestedCount re);
    destruct (0 <? GoInt.len (findOverlappingQuantifiers re)); reflexivity.
Qed.

Lemma accumulate_scored_class re : scored_class (TimeClass (accumulate re)).
Proof.
  rewrite accumulate_TimeClass. unfold scored_class.
  destruct (0 <? nestedCount re); [auto|].
  destruct (0 <? GoInt.len (findOverlappingQuantifiers re)); auto.
Qed.

Lemma determineComplexity_exponential score :
  TimeClass score = "exponential" ->
  TimeClass (determineComplexity score) = "exponential"
  /\ Complexity (determineComplexity score) = "O(2^n)"
  /\ 70 <= Score (determineComplexity score).
Proof.
  intros Hclass. unfold determineComplexity. rewrite Hclass. cbn [String.eqb].
  change (String.eqb "exponential" "exponential") with true. cbn iota.
  destruct (Score _ <? 70) eqn:Hlt; cbn; repeat split; try assumption.
  - lia.
  - apply Z.ltb_ge in Hlt. exact Hlt.
Qed.

Lemma determineComplexity_polynomial score :
  TimeClass score = "polynomial" ->
  TimeClass (determineComplexity score) = "polynomial"
  /\ Complexity (determineComplexity score)
     = (if Degree score =? 2 then "O(n²)"
        else if Degree score =? 3 then "O(n³)" else "O(n^k)")
  /\ 40 <= Score (determineComplexity score).
Proof.
  intros Hclass. unfold determineComplexity. rewrite Hclass.
  change (String.eqb "polynomial" "exponential") with false.
  change (String.eqb "polynomial" "polynomial") with true. cbn iota.
  destruct (Degree score =? 2); [|destruct (Degree score =? 3)];
    (match goal with |- context [Score ?s <? 40] => destruct (Score s <? 40) eqn:Hlt end);
    cbn in *; repeat split; try assumption; try lia;
    apply Z.ltb_ge in Hlt; exact Hlt.
Qed.

Lemma determineComplexity_linear score :
  TimeClass score = "linear" ->
  TimeClass (determineComplexity score) = "linear"
  /\ Complexity (determineComplexity score) = "O(n)"
  /\ Score (determineComplexity score) = Score score.
Proof.
  intros Hclass. unfold determineComplexity. rewrite Hclass.
  change (String.eqb "linear" "exponential") with false.
  change (String.eqb "linear" "polynomial") with false.
  change (String.eqb "linear" "linear") with true. cbn iota.
  destruct (Score score <? 20); cbn; repeat split; assumption.
Qed.

Lemma determineComplexity_Degree score :
  Degree (determineComplexity score) = Degree score.
Proof.
  unfold determineComplexity.
  repeat (match goal with
          | |- context [if ?c then _ else _] => destruct c
          end; cbn [Degree setScore setComplexity setTimeClass]);
    reflexivity.
Qed.

(** The only branch of [determineComplexity] that writes "constant" is
    the one taken when [TimeClass] is none of the three scored classes. *)
Lemma determineComplexity_constant score :
  TimeClass (determineComplexity score) = "constant" ->
  TimeClass score <> "constant" ->
  ~ scored_class (TimeClass score) /\ Score score < 10.
Proof.
  unfold determineComplexity, scored_class. intros Hconst Hnot.
  destruct (String.eqb_spec (TimeClass score) "exponential") as [He|He].
  { destruct (Score _ <? 70); cbn in Hconst; congruence. }
  destruct (String.eqb_spec (TimeClass score) "polynomial") as [Hp|Hp].
  { destruct (Degree score =? 2); [|destruct (Degree score =? 3)];
      (match type of Hconst with
       | context [Score ?s <? 40] => destruct (Score s <? 40)
       end); cbn in Hconst; congruence. }
  destruct (String.eqb_spec (TimeClass score) "linear") as [Hl|Hl].
  { destruct (Score score <? 20); cbn in Hconst; congruence. }
  destruct (Score score <? 10) eqn:Hlt.
  - apply Z.ltb_lt in Hlt. split; [tauto|exact Hlt].
  - congruence.
Qed.

Lemma Analyze_eq a re pattern :
  Analyze a re pattern
  = Errors.Ok (capped (MaxComplexityScore (opts a)) (determineComplexity (accumulate re))).
Proof. reflexivity. Qed.

Lemma capped_fields max score :
  TimeClass (capped max score) = TimeClass score
  /\ Complexity (capped max score) = Complexity score
  /\ Degree (capped max score) = Degree score
  /\ Description (capped max score) = Description score
  /\ Score (capped max score) = Z.min max (Score score).
Proof.
  unfold capped. destruct (max <? Score score) eqn:Hlt; cbn; repeat split.
  - apply Z.ltb_lt in Hlt. lia.
  - apply Z.ltb_ge in Hlt. lia.
Qed.

End AnalyzerFacts.

(** ** The public operations *)
Section RegretFacts.
Context `{L : Syntax.Library}.
Import Errors Regret.

Lemma pumpGen_generate_Ok pattern re :
  Parser.Parse Parser.NewParser pattern = inl re ->
  exists pump,
    pumpGen_generate pattern = Ok pump
    /\ Prefix pump = ""
    /\ (exists component, Pumps pump = [component] /\ component <> "")
    /\ Suffix pump = "x"
    /\ Interleave pump = false.
Proof.
  intros Hparse. unfold pumpGen_generate. rewrite Hparse.
  destruct (Generate_first (Pump.NewGenerator (Some (Pump.mkOptions 10 100 true)))
              re pattern) as (first & rest & -> & Hbase & Hcomp & Hfail).
  eexists. split; [reflexivity|]. cbn. repeat split; eauto.
Qed.

(** What [analyze] returns, field by field, in terms of the internal
    score it converts. *)
Lemma analyze_Ok o pattern score :
  analyze o pattern = Ok score ->
  exists re,
    Parser.Parse Parser.NewParser pattern = inl re
    /\ let result :=
         capped (MaxComplexityScore o)
           (Analyzer.determineComplexity (Analyzer.accumulate re)) in
       Overall score = Analyzer.Score result
       /\ TimeComplexity score = complexityFromString (Analyzer.Complexity result)
       /\ HasEDA score = String.eqb (Analyzer.TimeClass result) "exponential"
       /\ HasIDA score = String.eqb (Analyzer.TimeClass result) "polynomial"
       /\ PolynomialDegree score = Analyzer.Degree result
       /\ Safe score = (Analyzer.Score result <? 50)
       /\ (if 50 <=? Analyzer.Score result
           then exists pump,
               pumpGen_generate pattern = Ok pump
               /\ PumpPattern_ score = Pumps pump
               /\ WorstCaseInput score = Generate pump 20
           else PumpPattern_ score = [] /\ WorstCaseInput score = "").
Proof.
  unfold analyze. intros Hrun.
  destruct (Parser.Parse Parser.NewParser pattern) as [re|err] eqn:Hparse;
    [|discriminate].
  exists re. split; [reflexivity|].
  rewrite Analyze_eq in Hrun. cbn [Analyzer.opts Analyzer.NewAnalyzer
    Analyzer.MaxComplexityScore] in Hrun.
  set (result := capped _ _) in *. cbn zeta.
  destruct (50 <=? Analyzer.Score result) eqn:Hunsafe.
  - destruct (pumpGen_generate_Ok pattern re Hparse)
      as (pump & Hgen & _ & (component & Hpumps & _) & _ & _).
    rewrite Hgen in Hrun. rewrite Hpumps in Hrun. cbn in Hrun.
    injection Hrun as <-. cbn. repeat split.
    exists pump. rewrite Hpumps. repeat split; assumption.
  - injection Hrun as <-. cbn. repeat split.
Qed.

(** [analyze] returns a score for every pattern the parser accepts. *)
Lemma analyze_total o pattern re :
  Parser.Parse Parser.NewParser pattern = inl re ->
  exists score, analyze o pattern = Ok score.
Proof.
  intros Hparse. unfold analyze. rewrite Hparse, Analyze_eq.
  destruct (50 <=? _).
  - destruct (pumpGen_generate_Ok pattern re Hparse) as (pump & -> & _).
    eexists. reflexivity.
  - eexists. reflexivity.
Qed.

Lemma AnalyzeComplexity_cap : MaxComplexityScore (setChecks CheckAll ThoroughOptions) = 70.
Proof. reflexivity. Qed.

(** A reported [HasEDA] comes from the exponential branch of
    [determineComplexity]: the class string and the floor are its. *)
Lemma analyze_exponential o pattern score :
  analyze o pattern = Ok score ->
  HasEDA score = true ->
  exists re,
    Parser.Parse Parser.NewParser pattern = inl re
    /\ Analyzer.TimeClass (Analyzer.accumulate re) = "exponential"
    /\ TimeComplexity score = Exponential
    /\ Overall score
       = Z.min (MaxComplexityScore o)
           (Analyzer.Score (Analyzer.determineComplexity (Analyzer.accumulate re)))
    /\ 70 <= Analyzer.Score (Analyzer.determineComplexity (Analyzer.accumulate re)).
Proof.
  intros Hrun Heda.
  destruct (analyze_Ok _ _ _ Hrun)
    as (re & Hparse & Hoverall & Htime & Heda' & _).
  set (final := Analyzer.determineComplexity (Analyzer.accumulate re)) in *.
  destruct (capped_fields (MaxComplexityScore o) final)
    as (Hclass & Hcomplexity & _ & _ & Hscore).
  rewrite Heda, Hclass in Heda'. symmetry in Heda'.
  apply String.eqb_eq in Heda'.
  assert (Analyzer.TimeClass (Analyzer.accumulate re) = "exponential") as Hacc.
  { destruct (accumulate_scored_class re) as [Hc|[Hc|Hc]]; [| |exact Hc].
    - destruct (determineComplexity_linear _ Hc) as (Hc' & _).
      unfold final in Heda'. congruence.
    - destruct (determineComplexity_polynomial _ Hc) as (Hc' & _).
      unfold final in Heda'. congruence. }
  destruct (determineComplexity_exponential _ Hacc) as (_ & Hstr & Hfloor).
  fold final in Hstr, Hfloor.
  exists re. repeat split; try assumption.
  - rewrite Htime, Hcomplexity, Hstr. reflexivity.
  - rewrite Hoverall, Hscore. reflexivity.
Qed.

(** C1. For every pattern the parser accepts, [AnalyzeComplexity] returns a
    score, and when that score reports [HasEDA] its [Overall] is at least 70
    and its time complexity is the exponential class: the floor of 70 is
    applied first, and the cap that follows is the 70 of the thorough
    profile. *)
Theorem HasEDA_score_and_class (pattern : string) (re : Syntax.Regexp) :
  Parser.Parse Parser.NewParser pattern = inl re ->
  exists score,
    AnalyzeComplexity pattern = Ok score
    /\ (HasEDA score = true ->
        70 <= Overall score /\ TimeComplexity score = Exponential).
Proof.
  intros Hparse.
  destruct (analyze_total (setChecks CheckAll ThoroughOptions) pattern re Hparse)
    as (score & Hrun).
  exists score. split; [exact Hrun|]. intros Heda.
  destruct (analyze_exponential _ _ _ Hrun Heda)
    as (re' & _ & _ & Htime & Hoverall & Hfloor).
  rewrite AnalyzeComplexity_cap in Hoverall.
  split; [lia|exact Htime].
Qed.

(** C3. For every pattern the parser accepts, [AnalyzeComplexity] returns a
    score whose [Overall] is at least 50 exactly when the worst-case input
    is not empty, and exactly when the pump components are not empty: from
    50 on the pump generator is run, returns a pump, and both fields are
    filled from it; below 50 both stay empty. *)
Theorem pump_fields_iff_unsafe (pattern : string) (re : Syntax.Regexp) :
  Parser.Parse Parser.NewParser pattern = inl re ->
  exists score,
    AnalyzeComplexity pattern = Ok score
    /\ (50 <= Overall score <-> WorstCaseInput score <> "")
    /\ (WorstCaseInput score <> "" <-> PumpPattern_ score <> [])
    /\ (50 <= Overall score ->
        exists pump,
          pumpGen_generate pattern = Ok pump
          /\ PumpPattern_ score = Pumps pump
          /\ WorstCaseInput score = Generate pump 20).
Proof.
  intros Hparse0.
  destruct (analyze_total (setChecks CheckAll ThoroughOptions) pattern re Hparse0)
    as (score & Hrun).
  exists score. split; [exact Hrun|]. clear re Hparse0.
  destruct (analyze_Ok _ _ _ Hrun)
    as (re & Hparse & Hoverall & _ & _ & _ & _ & _ & Hpump).
  set (result := capped _ _) in *. rewrite Hoverall.
  destruct (50 <=? Analyzer.Score result) eqn:Hunsafe.
  - apply Z.leb_le in Hunsafe.
    destruct Hpump as (pump & Hgen & Hfield & Hinput).
    destruct (pumpGen_generate_Ok pattern re Hparse)
      as (pump' & Hgen' & _ & (component & Hpumps & _) & Hsuffix & _).
    assert (pump' = pump) as -> by congruence.
    assert (WorstCaseInput score <> "") as Hne.
    { rewrite Hinput. unfold Generate. cbn [Z.leb Z.compare].
      apply append_nonempty_r. rewrite Hsuffix. discriminate. }
    assert (PumpPattern_ score <> []) as Hne'.
    { rewrite Hfield, Hpumps. discriminate. }
    repeat split; try tauto. intros _. exists pump. auto.
  - apply Z.leb_gt in Hunsafe. destruct Hpump as (Hfield & Hinput).
    rewrite Hfield, Hinput. repeat split; try tauto; try lia.
Qed.


End RegretFacts.

Section RegretFacts2.
Context `{L : Syntax.Library}.
Import Errors Regret.

(** [PolynomialDegree] is the internal [Degree], whatever the class. *)
Lemma PolynomialDegree_is_Degree (pattern : string) (score : ComplexityScore) :
  AnalyzeComplexity pattern = Ok score ->
  exists re,
    Parser.Parse Parser.NewParser pattern = inl re
    /\ PolynomialDegree score = Analyzer.Degree (Analyzer.accumulate re).
Proof.
  intros Hrun. unfold AnalyzeComplexity in Hrun.
  destruct (analyze_Ok _ _ _ Hrun) as (re & Hparse & _ & _ & _ & _ & Hdeg & _).
  exists re. split; [exact Hparse|].
  rewrite Hdeg, (proj1 (proj2 (proj2 (capped_fields _ _)))).
  apply determineComplexity_Degree.
Qed.

(** C7 (as the code has it). For every pattern the parser accepts, the
    finalization step never classifies the result as constant: [Analyze]
    only reaches [determineComplexity] with one of the classes linear,
    polynomial and exponential, and the branch that writes "O(1)" is the
    one for any other class.  A pattern whose accumulated class is linear
    keeps the class and the string "O(n)", whatever its score and its
    quantifiers. *)
Theorem finalization_never_constant (pattern : string) (re : Syntax.Regexp) :
  Parser.Parse Parser.NewParser pattern = inl re ->
  exists score result,
    AnalyzeComplexity pattern = Ok score
    /\ Analyzer.Analyze
         (Analyzer.NewAnalyzer
            (Some (Analyzer.mkOptions (Timeout ThoroughOptions) 70))) re pattern
       = Ok result
    /\ Analyzer.TimeClass result <> "constant"
    /\ Analyzer.Complexity result <> "O(1)"
    /\ TimeComplexity score <> Constant
    /\ (Analyzer.TimeClass (Analyzer.accumulate re) = "linear" ->
        Analyzer.TimeClass result = "linear"
        /\ Analyzer.Complexity result = "O(n)"
        /\ TimeComplexity score = Linear).
Proof.
  intros Hparse0.
  destruct (analyze_total (setChecks CheckAll ThoroughOptions) pattern re Hparse0)
    as (score & Hrun).
  destruct (analyze_Ok _ _ _ Hrun) as (re' & Hparse & _ & Htime & _).
  assert (re' = re) as -> by congruence.
  rewrite AnalyzeComplexity_cap in Htime.
  exists score, (capped 70 (Analyzer.determineComplexity (Analyzer.accumulate re))).
  split; [exact Hrun|]. split; [reflexivity|].
  destruct (capped_fields 70 (Analyzer.determineComplexity (Analyzer.accumulate re)))
    as (Hclass & Hcomplexity & _).
  rewrite Htime, Hclass, Hcomplexity.
  destruct (accumulate_scored_class re) as [Hc|[Hc|Hc]].
  - destruct (determineComplexity_linear _ Hc) as (-> & -> & _).
    repeat split; discriminate.
  - destruct (determineComplexity_polynomial _ Hc) as (-> & -> & _).
    rewrite Hc.
    destruct (Analyzer.Degree _ =? 2); [|destruct (Analyzer.Degree _ =? 3)];
      repeat split; discriminate.
  - destruct (determineComplexity_exponential _ Hc) as (-> & -> & _).
    rewrite Hc. repeat split; discriminate.
Qed.


Lemma runBalancedChecks_not_Err re pattern e :
  Detector.runBalancedChecks re pattern <> Err e.
Proof.
  unfold Detector.runBalancedChecks.
  destruct (Detector.AnalyzePattern re pattern); discriminate.
Qed.

Lemma Detect_not_Err o re pattern e : Detector.Detect o re pattern <> Err e.
Proof.
  unfold Detector.Detect.
  destruct (Detector.Mode o =? Detector.Fast); [discriminate|].
  destruct (Detector.Mode o =? Detector.Balanced).
  { destruct (Detector.runBalancedChecks re pattern) eqn:Hrun; try discriminate.
    exfalso. eapply runBalancedChecks_not_Err. exact Hrun. }
  destruct (Detector.Mode o =? Detector.Thorough); [|discriminate].
  destruct (Detector.runBalancedChecks re pattern) eqn:Hrun; try discriminate.
  exfalso. eapply runBalancedChecks_not_Err. exact Hrun.
Qed.

(** The only error [validate] returns is the one of the parser. *)
Lemma validate_Err v pattern e :
  validate v pattern = Err e <-> Parser.Parse (v_parser v) pattern = inr e.
Proof.
  unfold validate. destruct (Parser.Parse (v_parser v) pattern) as [re|err].
  - split; [|discriminate]. intros Hrun.
    destruct (Detector.Detect (v_detect v) re pattern) eqn:Hdetect; try discriminate.
    exfalso. eapply Detect_not_Err. exact Hdetect.
  - split; congruence.
Qed.

(** C10. [ValidateWithOptions] with the nil options is
    [ValidateWithOptions] with [DefaultOptions]: the same issues, the same
    error.  The default options are the balanced mode, the default checks
    and a length bound of 1000, and [Validate] is that same call.  The nil
    options bring no failure of their own: the only errors are the one for
    a pattern longer than 1000 and the one of the parser. *)
Theorem nil_options_are_default (pattern : string) :
  ValidateWithOptions pattern None = ValidateWithOptions pattern (Some DefaultOptions)
  /\ Validate pattern = ValidateWithOptions pattern None
  /\ Mode DefaultOptions = Balanced
  /\ Checks DefaultOptions = CheckDefault
  /\ MaxPatternLength DefaultOptions = 1000
  /\ forall e,
      ValidateWithOptions pattern None = Err e
      <-> (1000 < GoString.len pattern
           /\ e = Errorf regret_ErrPatternTooLong
                   (GoString.of_int (GoString.len pattern) +:+ " > "
                      +:+ GoString.of_int 1000))
          \/ (GoString.len pattern <= 1000
              /\ Parser.Parse Parser.NewParser pattern = inr e).
Proof.
  split; [reflexivity|]. split; [reflexivity|]. split; [reflexivity|].
  split; [reflexivity|]. split; [reflexivity|].
  intros e.
  change (ValidateWithOptions pattern None)
    with (if 1000 <? GoString.len pattern
          then Err (Errorf regret_ErrPatternTooLong
                      (GoString.of_int (GoString.len pattern) +:+ " > "
                         +:+ GoString.of_int 1000))
          else validate (newValidator DefaultOptions) pattern).
  destruct (1000 <? GoString.len pattern) eqn:Hlen.
  - apply Z.ltb_lt in Hlen. split.
    + intros Herr. left. split; [exact Hlen|]. congruence.
    + intros [[_ ->]|[Hle _]]; [reflexivity|lia].
  - apply Z.ltb_ge in Hlen. rewrite validate_Err. cbn [newValidator v_parser]. split.
    + intros Hparse. right. split; [exact Hlen|exact Hparse].
    + intros [[Hlt _]|[_ Hparse]]; [lia|exact Hparse].
Qed.

End RegretFacts2.

(** ** The NFA builder always ends *)
Section BuilderFacts.
Import Syntax NFA.

Lemma total_ret {A} (a : A) : total (ret a).
Proof. intros nfa. eexists _, _. reflexivity. Qed.

Lemma total_bind {A B} (m : Build A) (k : A -> Build B) :
  total m -> (forall a, total (k a)) -> total (bind m k).
Proof.
  intros Hm Hk nfa. destruct (Hm nfa) as (a & nfa' & Hrun).
  unfold bind. rewrite Hrun. apply Hk.
Qed.

Lemma total_NewState : total NewState.
Proof. intros nfa. eexists _, _. reflexivity. Qed.

Lemma total_AddTransition from to label : total (AddTransition from to label).
Proof. intros nfa. eexists _, _. reflexivity. Qed.

Lemma total_AddEpsilonTransition from to : total (AddEpsilonTransition from to).
Proof. apply total_AddTransition. Qed.

Ltac total_steps :=
  repeat first
    [ apply total_bind; [|intros ?]
    | apply total_ret
    | apply total_NewState
    | apply total_AddEpsilonTransition
    | apply total_AddTransition
    | match goal with |- total (if ?c then _ else _) => destruct c end
    | assumption ].

Lemma total_buildLiteral_loop runes n i current accept :
  total (buildLiteral_loop runes n i current accept).
Proof.
  revert i current. induction runes as [|r runes IH]; intros i current; cbn.
  - apply total_ret.
  - total_steps; try apply IH.
Qed.

Lemma buildCharClass_ranges_paired runes ranges :
  Nat.even (List.length runes) = true ->
  exists ranges', buildCharClass_ranges runes ranges = Some ranges'.
Proof.
  revert ranges. remember (List.length runes) as n eqn:Hn.
  revert runes Hn. induction n as [n IH] using lt_wf_ind. intros runes Hn ranges Heven.
  destruct runes as [|lo [|hi rest]]; cbn in *.
  - eauto.
  - subst n. discriminate.
  - subst n. cbn in Heven. eapply (IH (List.length rest)); eauto.
Qed.

Lemma total_buildCharClass re start accept :
  Nat.even (List.length (Rune re)) = true -> total (buildCharClass re start accept).
Proof.
  intros Heven. unfold buildCharClass.
  destruct (buildCharClass_ranges_paired (Rune re) [] Heven) as (ranges & ->).
  total_steps.
Qed.

Section Loops.
Variable build : Regexp -> nat -> nat -> Build unit.

Lemma total_buildConcat_loop subs n i current accept :
  Forall (fun sub => forall s a, total (build sub s a)) subs ->
  total (buildConcat_loop build subs n i current accept).
Proof.
  intros Hsubs. revert i current.
  induction Hsubs as [|sub subs Hsub _ IH]; intros i current; cbn.
  - apply total_ret.
  - total_steps; try apply Hsub; try apply IH.
Qed.

Lemma total_buildAlternate_loop subs start accept :
  Forall (fun sub => forall s a, total (build sub s a)) subs ->
  total (buildAlternate_loop build subs start accept).
Proof.
  intros Hsubs. induction Hsubs as [|sub subs Hsub _ IH]; cbn.
  - apply total_ret.
  - total_steps; try apply Hsub; try apply IH.
Qed.

Lemma total_buildRepeat_required sub0 count current :
  (forall s a, total (build sub0 s a)) ->
  total (buildRepeat_required build sub0 count current).
Proof.
  intros Hsub. revert current. induction count as [|count IH]; intros current; cbn.
  - apply total_ret.
  - total_steps; try apply Hsub; try apply IH.
Qed.

Lemma total_buildRepeat_optional sub0 count current :
  (forall s a, total (build sub0 s a)) ->
  total (buildRepeat_optional build sub0 count current).
Proof.
  intros Hsub. revert current. induction count as [|count IH]; intros current; cbn.
  - apply total_ret.
  - total_steps; try apply Hsub; try apply IH.
Qed.
End Loops.

Lemma nodes_sub (re sub : Regexp) : In sub (Sub re) -> (nodes sub < nodes re)%nat.
Proof.
  destruct re as [op fl subs runes mn mx cp nm]. cbn [Sub]. intros Hin.
  change (nodes (mkRegexp op fl subs runes mn mx cp nm))
    with (S (list_sum (List.map nodes subs))).
  apply Nat.lt_succ_r.
  induction subs as [|x subs IH]; [contradiction|].
  unfold list_sum in *. cbn [List.map fold_right].
  destruct Hin as [->|Hin].
  - apply Nat.le_add_r.
  - eapply Nat.le_trans; [apply IH; exact Hin|]. rewrite Nat.add_comm. apply Nat.le_add_r.
Qed.

Lemma classesPaired_sub (re sub : Regexp) :
  classesPaired re = true -> In sub (Sub re) -> classesPaired sub = true.
Proof.
  destruct re as [op fl subs runes mn mx cp nm]. cbn [Sub]. intros Hre Hin.
  change (classesPaired (mkRegexp op fl subs runes mn mx cp nm))
    with (match op with
          | OpCharClass => Nat.even (List.length runes)
          | _ => true
          end && forallb classesPaired subs) in Hre.
  apply andb_prop in Hre as [_ Hsubs].
  rewrite forallb_forall in Hsubs. apply Hsubs. exact Hin.
Qed.

(** [buildNFAFromRegexp] returns, with the [nil] error, on every tree whose
    character classes are paired. *)
Lemma total_buildNFAFromRegexp (re : Regexp) :
  classesPaired re = true ->
  forall start accept, total (buildNFAFromRegexp re start accept).
Proof.
  remember (nodes re) as n eqn:Hn. revert re Hn.
  induction n as [n IH] using lt_wf_ind. intros re Hn Hpaired start accept.
  assert (Forall (fun sub => forall s a, total (buildNFAFromRegexp sub s a)) (Sub re))
    as Hsubs.
  { apply List.Forall_forall. intros sub Hin s a.
    apply (IH (nodes sub)); [subst n; apply nodes_sub; exact Hin|reflexivity|].
    eapply classesPaired_sub; eauto. }
  assert (forall sub0 rest, Sub re = sub0 :: rest ->
            forall s a, total (buildNFAFromRegexp sub0 s a)) as Hsub0.
  { intros sub0 rest Heq. rewrite Heq in Hsubs. inversion Hsubs; assumption. }
  destruct re as [op fl subs runes mn mx cp nm]. cbn [Sub] in *.
  destruct op;
    cbn [buildNFAFromRegexp Op_ Sub];
    unfold buildAnyChar, buildConcat, buildAlternate, buildStar, buildPlus,
      buildQuest, buildRepeat, buildLiteral; cbn [Sub Rune Min Max Op_];
    try (total_steps; fail).
  - apply total_buildLiteral_loop.
  - apply total_buildCharClass.
    cbn in Hpaired. apply andb_prop in Hpaired as [Hpaired _]. exact Hpaired.
  - destruct subs as [|sub0 rest]; [total_steps|]. eapply Hsub0; reflexivity.
  - destruct subs as [|sub0 rest]; total_steps. eapply Hsub0; reflexivity.
  - destruct subs as [|sub0 rest]; total_steps. eapply Hsub0; reflexivity.
  - destruct subs as [|sub0 rest]; total_steps. eapply Hsub0; reflexivity.
  - destruct subs as [|sub0 rest]; [total_steps|].
    apply total_bind.
    { apply total_buildRepeat_required. eapply Hsub0; reflexivity. }
    intros current. destruct (mx =? -1).
    + total_steps. eapply Hsub0; reflexivity.
    + apply total_bind.
      { apply total_buildRepeat_optional. eapply Hsub0; reflexivity. }
      intros current'. total_steps.
  - destruct subs as [|sub0 rest]; [total_steps|].
    apply total_buildConcat_loop. exact Hsubs.
  - apply total_buildAlternate_loop. exact Hsubs.
Qed.

(** [BuildNFA] returns an automaton for every such tree. *)
Lemma BuildNFA_total (re : Regexp) :
  classesPaired re = true -> exists nfa, BuildNFA re = Errors.Ok nfa.
Proof.
  intros Hpaired. unfold BuildNFA.
  assert (total (bind NewState (fun start =>
            bind NewState (fun accept =>
              bind (setAccept accept) (fun _ =>
                bind (setStartAccept start accept) (fun _ =>
                  buildNFAFromRegexp re start accept)))))) as Htotal.
  { apply total_bind; [apply total_NewState|]. intros start.
    apply total_bind; [apply total_NewState|]. intros accept.
    apply total_bind; [intros nfa; eexists _, _; reflexivity|]. intros _.
    apply total_bind; [intros nfa; eexists _, _; reflexivity|]. intros _.
    apply total_buildNFAFromRegexp. exact Hpaired. }
  destruct (Htotal NewNFA) as ([] & nfa & Hrun).
  exists nfa. rewrite Hrun. reflexivity.
Qed.

End BuilderFacts.

Section NoPanic.
Context `{L : Syntax.Library}.
Import Errors Regret.

Lemma Detect_no_panic o re pattern :
  classesPaired re = true ->
  exists issues, Detector.Detect o re pattern = Ok issues.
Proof.
  intros Hpaired. destruct (BuildNFA_total re Hpaired) as (nfa & Hbuild).
  unfold Detector.Detect, Detector.runBalancedChecks, Detector.AnalyzePattern.
  rewrite Hbuild.
  destruct (Detector.Mode o =? Detector.Fast); [eauto|].
  destruct (Detector.Mode o =? Detector.Balanced); [eauto|].
  destruct (Detector.Mode o =? Detector.Thorough); eauto.
Qed.

(** On a pattern whose tree has paired character classes,
    [ValidateWithOptions] returns issues or an error, whatever the options
    are, the nil options included. *)
Lemma ValidateWithOptions_no_panic pattern o re :
  Parser.Parse Parser.NewParser pattern = inl re ->
  classesPaired re = true ->
  (exists issues, ValidateWithOptions pattern o = Ok issues)
  \/ (exists e, ValidateWithOptions pattern o = Err e).
Proof.
  intros Hparse Hpaired. unfold ValidateWithOptions.
  destruct (AllowUnsafe _); [left; eauto|].
  destruct (_ && _); [right; eauto|].
  unfold validate, newValidator. cbn [v_parser v_detect]. rewrite Hparse.
  destruct (Detect_no_panic
              (Detector.mkOptions (Mode (effective o)) (Checks (effective o)))
              re pattern Hpaired) as (issues & Hdetect).
  unfold effective in Hdetect. rewrite Hdetect. left. eauto.
Qed.

End NoPanic.

(** ** The epsilon graph of an automaton *)
#[local] Set Warnings "-clear-no-such-hyp".

Section EpsilonGraph.
Variable nfa : NFA.NFA.

Local Abbreviation eps := (Spec.eps nfa).
Local Abbreviation unmarked := (Spec.unmarked nfa).
Local Abbreviation marks_from := (Spec.marks_from nfa).

Lemma eps_source (x y : nat) : eps x y -> (x < List.length (NFA.States nfa))%nat.
Proof.
  unfold Spec.eps, NFA.epsilonTo. intros Hedge.
  destruct (NFA.States nfa !! x) eqn:Hlook.
  - eapply lookup_lt_Some. exact Hlook.
  - apply not_elem_of_nil in Hedge. contradiction.
Qed.

Lemma unmarked_mono (C C' : gset nat) : C ⊆ C' -> (unmarked C' <= unmarked C)%nat.
Proof. intros Hsub. unfold Spec.unmarked. apply subseteq_size. set_solver. Qed.

Lemma unmarked_mark (state : nat) (C : gset nat) :
  (state < List.length (NFA.States nfa))%nat ->
  state ∉ C ->
  (unmarked ({[state]} ∪ C) < unmarked C)%nat.
Proof.
  intros Hlt Hfresh. unfold Spec.unmarked. apply subset_size.
  apply strict_spec_alt. split; [set_solver|].
  intros Heq.
  assert (state ∈ (set_seq 0 (List.length (NFA.States nfa)) ∖ C : gset nat)) as Hin.
  { apply elem_of_difference. split; [|exact Hfresh].
    apply elem_of_set_seq. lia. }
  rewrite <- Heq in Hin. set_solver.
Qed.


(** *** [computeEpsilonClosureHelper] *)

Lemma closure_fold (fuel : nat) (state : nat) (nexts : list nat) :
  (forall next C, (unmarked C < fuel)%nat ->
     exists C', NFA.computeEpsilonClosureHelper fuel nfa next C = Some C'
                /\ marks_from next C C') ->
  forall C0,
    (nexts = [] \/ (unmarked C0 < fuel)%nat) ->
    exists C',
      foldl (fun acc next =>
               match acc with
               | Some closure' => NFA.computeEpsilonClosureHelper fuel nfa next closure'
               | None => None
               end) (Some C0) nexts = Some C'
      /\ C0 ⊆ C'
      /\ (forall next, next ∈ nexts -> next ∈ C')
      /\ (forall x, x ∈ C' -> x ∉ C0 -> forall y, eps x y -> y ∈ C')
      /\ (forall x, x ∈ C' -> x ∈ C0 \/ exists next, next ∈ nexts /\ rtc eps next x).
Proof.
  intros IH. induction nexts as [|next rest IHrest]; intros C0 Hfuel.
  - exists C0. cbn. repeat split; try set_solver.
  - destruct Hfuel as [Hnil|Hfuel]; [discriminate|].
    destruct (IH next C0 Hfuel) as (C1 & Hrun & Hsub & Hnext & Hclosed & Hreach).
    cbn [foldl]. rewrite Hrun.
    destruct (IHrest C1) as (C' & Hfold & Hsub' & Hrest & Hclosed' & Hreach').
    { right. pose proof (unmarked_mono _ _ Hsub). lia. }
    exists C'. split; [exact Hfold|]. repeat split.
    + set_solver.
    + intros n Hn. apply elem_of_cons in Hn as [->|Hn]; [set_solver|auto].
    + intros x Hx Hfresh y Hedge.
      destruct (decide (x ∈ C1)) as [Hin|Hout].
      * apply Hsub'. eapply Hclosed; eauto.
      * eapply Hclosed'; eauto.
    + intros x Hx. destruct (Hreach' x Hx) as [Hin|(n & Hn & Hpath)].
      * destruct (Hreach x Hin) as [?|Hpath]; [by left|].
        right. exists next. split; [set_solver|exact Hpath].
      * right. exists n. split; [set_solver|exact Hpath].
Qed.

Lemma computeEpsilonClosureHelper_spec (fuel : nat) :
  forall state C,
    (unmarked C < fuel)%nat ->
    exists C', NFA.computeEpsilonClosureHelper fuel nfa state C = Some C'
               /\ marks_from state C C'.
Proof.
  induction fuel as [|fuel IH]; intros state C Hfuel; [lia|].
  cbn [NFA.computeEpsilonClosureHelper].
  destruct (decide (state ∈ C)) as [Hin|Hfresh].
  - exists C. split; [reflexivity|]. unfold Spec.marks_from. repeat split; try set_solver.
  - destruct (closure_fold fuel state (NFA.epsilonTo nfa state) IH ({[state]} ∪ C))
      as (C' & Hfold & Hsub & Hnexts & Hclosed & Hreach).
    { destruct (NFA.epsilonTo nfa state) as [|next rest] eqn:Hsucc; [by left|].
      right.
      assert (eps state next) as Hedge by (unfold Spec.eps; rewrite Hsucc; set_solver).
      pose proof (unmarked_mark state C (eps_source _ _ Hedge) Hfresh). lia. }
    exists C'. split; [exact Hfold|]. unfold Spec.marks_from. repeat split.
    + set_solver.
    + set_solver.
    + intros x Hx Hout y Hedge.
      destruct (decide (x = state)) as [->|Hne].
      * apply Hnexts. exact Hedge.
      * eapply Hclosed; eauto. set_solver.
    + intros x Hx. destruct (Hreach x Hx) as [Hin|(next & Hnext & Hpath)].
      * apply elem_of_union in Hin as [Hin|Hin]; [|by left].
        apply elem_of_singleton in Hin as ->. right. apply rtc_refl.
      * right. eapply rtc_l; [|exact Hpath]. exact Hnext.
Qed.

(** The depth [ComputeEpsilonClosure] allows is never exceeded. *)
Lemma computeEpsilonClosureHelper_terminates (state : nat) :
  exists C,
    NFA.computeEpsilonClosureHelper (S (List.length (NFA.States nfa))) nfa state ∅
    = Some C
    /\ NFA.ComputeEpsilonClosure nfa state = C.
Proof.
  destruct (computeEpsilonClosureHelper_spec
              (S (List.length (NFA.States nfa))) state ∅) as (C & Hrun & _).
  - unfold Spec.unmarked. rewrite difference_empty_L, size_set_seq. lia.
  - exists C. split; [exact Hrun|]. unfold NFA.ComputeEpsilonClosure.
    rewrite Hrun. reflexivity.
Qed.


End EpsilonGraph.

(** ** The cycle test of the NFA analysis *)
Section CycleTest.
Context `{L : Syntax.Library}.
Variable nfa : NFA.NFA.
Import Detector.

Local Abbreviation hits := (Spec.hits nfa).
Local Abbreviation clear := (Spec.clear nfa).
Local Abbreviation hasCycle_result := (Spec.hasCycle_result nfa).

Lemma hasCycle_loop_spec (fuel : nat) (state : nat) (nexts : list nat) :
  (forall next W, (unmarked nfa W < fuel)%nat ->
     hasCycle_result next W (hasCycle fuel nfa next W)) ->
  forall W,
    (nexts = [] \/ (unmarked nfa W < fuel)%nat) ->
    exists found W',
      hasCycle_loop (hasCycle fuel nfa) state nexts W = Some (found, W')
      /\ (found = false ->
          W' = W ∖ {[state]} /\ forall next, next ∈ nexts -> clear next W)
      /\ (found = true -> exists next, next ∈ nexts /\ hits next W).
Proof.
  intros IH. induction nexts as [|next rest IHrest]; intros W Hfuel.
  - exists false, (W ∖ {[state]}). cbn. split; [reflexivity|]. split.
    + intros _. split; [reflexivity|]. intros next Hin. set_solver.
    + discriminate.
  - destruct Hfuel as [Hnil|Hfuel]; [discriminate|].
    destruct (IH next W Hfuel) as (found & W1 & Hrun & Hfalse & Htrue).
    cbn [hasCycle_loop]. rewrite Hrun. destruct found.
    + exists true, W1. split; [reflexivity|]. split; [discriminate|].
      intros _. exists next. split; [set_solver|auto].
    + destruct (Hfalse eq_refl) as (-> & Hclear).
      destruct (IHrest W (or_intror Hfuel)) as (found & W' & Hloop & Hfalse' & Htrue').
      exists found, W'. split; [exact Hloop|]. split.
      * intros Hf. destruct (Hfalse' Hf) as (-> & Hrest).
        split; [reflexivity|].
        intros n Hn. apply elem_of_cons in Hn as [->|Hn]; auto.
      * intros Hf. destruct (Htrue' Hf) as (n & Hn & Hhit).
        exists n. split; [set_solver|exact Hhit].
Qed.

Lemma tc_eps_first_step (x z : nat) :
  tc (eps nfa) x z -> exists y, eps nfa x y /\ rtc (eps nfa) y z.
Proof.
  intros Hpath. destruct Hpath as [x z Hedge|x y z Hedge Hrest].
  - exists z. split; [exact Hedge|apply rtc_refl].
  - exists y. split; [exact Hedge|apply tc_rtc; exact Hrest].
Qed.

Lemma hasCycle_spec (fuel : nat) :
  forall state visited,
    (unmarked nfa visited < fuel)%nat ->
    hasCycle_result state visited (hasCycle fuel nfa state visited).
Proof.
  induction fuel as [|fuel IH]; intros state visited Hfuel; [lia|].
  cbn [hasCycle]. destruct (decide (state ∈ visited)) as [Hin|Hfresh].
  - exists true, visited. split; [reflexivity|]. split; [discriminate|].
    intros _. exists state. split; [apply rtc_refl|by left].
  - destruct (hasCycle_loop_spec fuel state (NFA.epsilonTo nfa state) IH
                ({[state]} ∪ visited))
      as (found & W' & Hloop & Hfalse & Htrue).
    { destruct (NFA.epsilonTo nfa state) as [|next rest] eqn:Hsucc; [by left|].
      right.
      assert (eps nfa state next) as Hedge by (unfold eps; rewrite Hsucc; set_solver).
      pose proof (unmarked_mark nfa state visited (eps_source _ _ _ Hedge) Hfresh).
      lia. }
    exists found, W'. split; [exact Hloop|]. split.
    + intros Hf. destruct (Hfalse Hf) as (-> & Hclear).
      split; [set_solver|].
      intros x Hpath. apply rtc_inv in Hpath as [<-|(y & Hedge & Hpath)].
      * split; [exact Hfresh|].
        intros Hcycle. apply tc_eps_first_step in Hcycle as (y & Hedge & Hback).
        destruct (Hclear y Hedge state Hback) as [Hout _]. set_solver.
      * destruct (Hclear y Hedge x Hpath) as [Hout Hnocycle].
        split; [set_solver|exact Hnocycle].
    + intros Hf. destruct (Htrue Hf) as (next & Hedge & x & Hpath & Hx).
      destruct Hx as [Hx|Hx].
      * apply elem_of_union in Hx as [Hx|Hx].
        -- apply elem_of_singleton in Hx as ->.
           exists state. split; [apply rtc_refl|]. right.
           eapply tc_rtc_r; [apply tc_once; exact Hedge|exact Hpath].
        -- exists x. split; [|by left]. eapply rtc_l; [exact Hedge|exact Hpath].
      * exists x. split; [|by right]. eapply rtc_l; [exact Hedge|exact Hpath].
Qed.

(** The depth [isInQuantifierLoop] allows is never exceeded. *)
Lemma hasCycle_terminates (state : nat) :
  exists found visited',
    hasCycle (S (List.length (NFA.States nfa))) nfa state ∅ = Some (found, visited')
    /\ isInQuantifierLoop nfa state = found.
Proof.
  destruct (hasCycle_spec (S (List.length (NFA.States nfa))) state ∅)
    as (found & visited' & Hrun & _).
  - unfold unmarked. rewrite difference_empty_L, size_set_seq. lia.
  - exists found, visited'. split; [exact Hrun|].
    unfold isInQuantifierLoop. rewrite Hrun. reflexivity.
Qed.


Lemma on_cycle_reaches (state : nat) :
  on_epsilon_cycle nfa state -> reaches_epsilon_cycle nfa state.
Proof. intros Hcycle. exists state. split; [apply rtc_refl|exact Hcycle]. Qed.

End CycleTest.

(** ** The state loop of [detectEDA] *)
Section DetectEDA.
Context `{L : Syntax.Library}.
Import Detector.





End DetectEDA.

(** ** The fast rule on alternations *)
Section OverlapFacts.
Context `{L : Syntax.Library}.
Import Syntax Detector.

Lemma nodes_sub0 (a sub0 : Regexp) (rest : list Regexp) :
  Sub a = sub0 :: rest -> (nodes sub0 < nodes a)%nat.
Proof.
  destruct a as [op fl subs runes mn mx cp nm]. cbn [Sub]. intros ->.
  change (nodes (mkRegexp op fl (sub0 :: rest) runes mn mx cp nm))
    with (S (list_sum (List.map nodes (sub0 :: rest)))).
  unfold list_sum. cbn [List.map fold_right].
  generalize (fold_right Init.Nat.add 0%nat (List.map nodes rest)), (nodes sub0).
  intros; lia.
Qed.

Lemma nodes_positive (a : Regexp) : (0 < nodes a)%nat.
Proof. destruct a. cbn. apply Nat.lt_0_succ. Qed.

Lemma nodes_unwrapCaptures (a : Regexp) : (nodes (unwrapCaptures a) <= nodes a)%nat.
Proof.
  assert (forall n a, (nodes a <= n)%nat -> (nodes (unwrapCaptures a) <= nodes a)%nat)
    as Hall; [|apply (Hall (nodes a)); apply Nat.le_refl].
  clear a. induction n as [|n IH]; intros a Hle.
  - pose proof (nodes_positive a). exfalso. eapply Nat.lt_irrefl, Nat.lt_le_trans; eauto.
  - destruct a as [op fl subs runes mn mx cp nm].
    destruct op; try apply Nat.le_refl.
    destruct subs as [|sub0 rest]; [apply Nat.le_refl|].
    change (unwrapCaptures (mkRegexp OpCapture fl (sub0 :: rest) runes mn mx cp nm))
      with (unwrapCaptures sub0).
    assert (nodes sub0 < nodes (mkRegexp OpCapture fl (sub0 :: rest) runes mn mx cp nm))%nat
      as Hlt by (apply (nodes_sub0 _ sub0 rest); reflexivity).
    revert Hlt Hle.
    generalize (nodes (mkRegexp OpCapture fl (sub0 :: rest) runes mn mx cp nm)).
    intros m Hlt Hle.
    assert (nodes sub0 <= n)%nat as Hsub.
    { apply Nat.lt_succ_r. eapply Nat.lt_le_trans; eauto. }
    specialize (IH sub0 Hsub).
    eapply Nat.le_trans; [exact IH|]. apply Nat.lt_le_incl. exact Hlt.
Qed.

(** The depth [branchesOverlap] allows is never exceeded. *)
Lemma branchesOverlap_fuel_enough (fuel : nat) :
  forall a b,
    (nodes a + nodes b < fuel)%nat ->
    exists r, branchesOverlap_fuel fuel a b = Some r.
Proof.
  induction fuel as [|fuel IH]; intros a b Hfuel; [lia|].
  cbn [branchesOverlap_fuel].
  pose proof (nodes_unwrapCaptures a) as Ha.
  pose proof (nodes_unwrapCaptures b) as Hb.
  set (a' := unwrapCaptures a) in *. set (b' := unwrapCaptures b) in *.
  destruct (_ && _ && _); [eauto|].
  destruct (_ && _ && _); [eauto|].
  destruct (Op_ a') eqn:Hopa; try (destruct (Op_ b'); eauto; fail).
  - (* a literal against a concatenation *)
    destruct (Op_ b') eqn:Hopb; eauto.
    destruct (Sub a'); destruct (Sub b') as [|b0 restb] eqn:Hsubb; eauto;
      apply IH; pose proof (nodes_sub0 _ _ _ Hsubb); lia.
  - (* a concatenation *)
    destruct (Op_ b') eqn:Hopb; eauto;
      destruct (Sub a') as [|a0 resta] eqn:Hsuba; eauto.
    + apply IH. pose proof (nodes_sub0 _ _ _ Hsuba). lia.
    + destruct (Sub b') as [|b0 restb] eqn:Hsubb; eauto.
      apply IH. pose proof (nodes_sub0 _ _ _ Hsuba).
      pose proof (nodes_sub0 _ _ _ Hsubb). lia.
Qed.

Lemma branchesOverlap_total (a b : Regexp) :
  branchesOverlap_fuel (S (nodes a + nodes b)) a b = Some (branchesOverlap a b).
Proof.
  destruct (branchesOverlap_fuel_enough (S (nodes a + nodes b)) a b) as (r & Hr);
    [lia|].
  unfold branchesOverlap. rewrite Hr. reflexivity.
Qed.

(** What the two loops append for one Alternate node: one copy of the issue
    per branch that overlaps a later branch, so fewer copies than branches. *)
Lemma overlap_outer_count pattern node subs issues :
  overlap_outer pattern node subs issues
  = issues ++ List.repeat (overlappingAlternationIssue pattern node)
                (overlappingFirsts subs).
Proof.
  revert issues. induction subs as [|a rest IH]; intros issues.
  - cbn. rewrite app_nil_r. reflexivity.
  - cbn [overlap_outer overlappingFirsts]. rewrite IH.
    destruct (overlap_inner a rest); cbn [Nat.add List.repeat].
    + rewrite <- app_assoc. reflexivity.
    + reflexivity.
Qed.

Lemma overlappingFirsts_bound subs :
  (overlappingFirsts subs <= Nat.pred (List.length subs))%nat.
Proof.
  induction subs as [|a rest IH]; [apply Nat.le_refl|].
  cbn [overlappingFirsts List.length Nat.pred].
  destruct rest as [|b rest'].
  - cbn. apply Nat.le_refl.
  - cbn [List.length Nat.pred] in IH.
    destruct (overlap_inner a (b :: rest')); cbn [Nat.add List.length].
    + apply le_n_S. exact IH.
    + apply Nat.le_le_succ_r. exact IH.
Qed.

(** Two captured literals that start with the same rune overlap, whatever
    their printed forms are. *)
Lemma branchesOverlap_captured_literals (i j r : Z) (ra rb : list Z) :
  branchesOverlap (Samples.capture i (Samples.literal (r :: ra)))
    (Samples.capture j (Samples.literal (r :: rb))) = true.
Proof.
  unfold branchesOverlap. cbn.
  destruct (_ && _ && _); [reflexivity|].
  rewrite Z.eqb_refl. reflexivity.
Qed.

(** C6 (what the code does). On the alternation of "(ab)|(ac)|(ad)" the
    rule emits two overlapping_alternation issues, equal in every field, for
    the one Alternate node: the pair (0,1) overlaps, the inner loop stops,
    and the outer loop goes on to the pair (1,2), which overlaps too. *)
Theorem overlapping_alternation_twice (pattern : string) :
  detectOverlappingAlternations Samples.re_three_branches pattern
  = [ overlappingAlternationIssue pattern Samples.re_three_branches;
      overlappingAlternationIssue pattern Samples.re_three_branches ]
  /\ Type_ (overlappingAlternationIssue pattern Samples.re_three_branches)
     = "overlapping_alternation"
  /\ Parser.CountAlternations Samples.re_three_branches = 1.
Proof.
  split; [|split; reflexivity].
  unfold detectOverlappingAlternations, Samples.re_three_branches, Samples.alternate.
  cbn [Parser.Walk Parser.IsAlternation Op_ Op_eqb negb Sub GoInt.len List.length
         Z.of_nat Z.leb Z.compare Pos.of_succ_nat Pos.succ Pos.compare
         Pos.compare_cont overlap_outer overlap_inner fold_left].
  rewrite !branchesOverlap_captured_literals.
  reflexivity.
Qed.

End OverlapFacts.

(** ** The sample patterns, run *)
Section Examples.
Import Errors Regret Samples.
#[local] Existing Instance sample_Library.


Example AnalyzeComplexity_nested_plus :
  AnalyzeComplexity "(a+)+"
  = Ok (mkComplexityScore 70 Exponential Linear true false 2 (mkMetrics 2 2 0)
          "aaaaaaaaaaaaaaaaaaaax" ["a"]
          "Exponential time complexity - catastrophic backtracking risk" false).
Proof. vm_compute. reflexivity. Qed.

Example AnalyzeComplexity_hello :
  AnalyzeComplexity "hello"
  = Ok (mkComplexityScore 0 Linear Linear false false 1 (mkMetrics 0 0 0) "" []
          "Linear time complexity - good performance" true).
Proof. vm_compute. reflexivity. Qed.

Example AnalyzeComplexity_two_stars :
  AnalyzeComplexity "a*a*"
  = Ok (mkComplexityScore 45 Quadratic Linear false true 2 (mkMetrics 1 2 0) "" []
          "Quadratic time complexity - moderate backtracking risk" true).
Proof. vm_compute. reflexivity. Qed.

(** The scorer looks for an inner quantifier through Concat and Capture
    only: a quantifier under an alternation does not make the outer one
    truly nested, and consecutive quantifiers then give the polynomial
    class. *)
Example AnalyzeComplexity_quantified_alternation :
  nestedCount re_quantified_alternation = 0
  /\ Parser.HasQuantifier (capture 1 (alternate [plus (literal [97]); literal [98]]))
     = true
  /\ exists score,
      AnalyzeComplexity "(a+|b)*c*d*" = Ok score
      /\ HasEDA score = false /\ HasIDA score = true /\ PolynomialDegree score = 2.
Proof.
  split; [vm_compute; reflexivity|]. split; [reflexivity|].
  eexists. split; [vm_compute; reflexivity|]. repeat split.
Qed.

Lemma HasEDA_score_and_class_witness :
  Parser.Parse Parser.NewParser "(a+)+" = inl re_nested_plus
  /\ exists score,
      AnalyzeComplexity "(a+)+" = Ok score
      /\ HasEDA score = true
      /\ 70 <= Overall score /\ TimeComplexity score = Exponential.
Proof.
  assert (Parser.Parse Parser.NewParser "(a+)+" = inl re_nested_plus) as Hparse
      by reflexivity.
  split; [exact Hparse|].
  destruct (HasEDA_score_and_class "(a+)+" re_nested_plus Hparse)
    as (score & Hrun & Heda).
  exists score. split; [exact Hrun|].
  assert (HasEDA score = true) as Hreported.
  { rewrite AnalyzeComplexity_nested_plus in Hrun. injection Hrun as <-. reflexivity. }
  split; [exact Hreported|exact (Heda Hreported)].
Defined.

(** C2 (what the code does). For "(a+)+" the report has [HasIDA = false]
    and [PolynomialDegree = 2]; for "hello" it has [HasIDA = false] and
    [PolynomialDegree = 1].  The field is the internal degree, copied
    whatever the class is. *)
Theorem PolynomialDegree_without_IDA :
  (exists score,
      AnalyzeComplexity "(a+)+" = Ok score
      /\ HasIDA score = false /\ HasEDA score = true /\ PolynomialDegree score = 2)
  /\ (exists score,
         AnalyzeComplexity "hello" = Ok score
         /\ HasIDA score = false /\ HasEDA score = false
         /\ PolynomialDegree score = 1).
Proof.
  split; eexists; (split; [vm_compute; reflexivity|]); repeat split.
Qed.

Lemma pump_fields_iff_unsafe_witness :
  Parser.Parse Parser.NewParser "(a+)+" = inl re_nested_plus
  /\ exists score,
      AnalyzeComplexity "(a+)+" = Ok score
      /\ (50 <= Overall score <-> WorstCaseInput score <> "")
      /\ (WorstCaseInput score <> "" <-> PumpPattern_ score <> [])
      /\ (50 <= Overall score ->
          exists pump,
            pumpGen_generate "(a+)+" = Ok pump
            /\ PumpPattern_ score = Pumps pump
            /\ WorstCaseInput score = Generate pump 20).
Proof.
  assert (Parser.Parse Parser.NewParser "(a+)+" = inl re_nested_plus) as Hparse
      by reflexivity.
  split; [exact Hparse|].
  exact (pump_fields_iff_unsafe "(a+)+" re_nested_plus Hparse).
Defined.


Lemma finalization_never_constant_witness :
  Parser.Parse Parser.NewParser "hello" = inl re_hello
  /\ exists score,
      AnalyzeComplexity "hello" = Ok score
      /\ TimeComplexity score = Linear.
Proof.
  assert (Parser.Parse Parser.NewParser "hello" = inl re_hello) as Hparse
      by reflexivity.
  split; [exact Hparse|].
  destruct (finalization_never_constant "hello" re_hello Hparse)
    as (score & result & Hrun & _ & _ & _ & _ & Hlinear).
  exists score. split; [exact Hrun|].
  apply Hlinear. vm_compute. reflexivity.
Defined.

(** "hello" scores 0, stays linear and holds no quantifier, and is
    reported linear, "O(n)". *)
Lemma constant_rule_fails_on_hello :
  ~ constant_exactly_when (Analyzer.NewAnalyzer None) re_hello "hello".
Proof.
  intros Hrule.
  destruct (Hrule _ (Analyze_eq (Analyzer.NewAnalyzer None) re_hello "hello"))
    as [_ Hconst].
  assert (Analyzer.Score (Analyzer.accumulate re_hello) = 0
          /\ Analyzer.TimeClass (Analyzer.accumulate re_hello) = "linear"
          /\ Analyzer.hasQuantifier re_hello = false) as (Hscore & Hlinear & Hquant)
      by (vm_compute; repeat split).
  destruct Hconst as [Hclass _].
  - rewrite Hscore. split; [lia|]. split; [exact Hlinear|exact Hquant].
  - rewrite (proj1 (capped_fields _ _)) in Hclass.
    rewrite (proj1 (determineComplexity_linear _ Hlinear)) in Hclass.
    discriminate.
Qed.





End Examples.
